(** * pwdbox: the front end of the vault, checked against its specification

  The repository is a Tauri application.  The TypeScript sources hold the
  boundary with the Rust engine ([src/utils/api.ts], [src/types/index.ts]),
  the session state ([hooks/useAuth]: the [AuthProvider]) and the pages
  ([LoginPage], [SetupPage], [DashboardPage]).  This development embeds those
  parts: records for the request and response types, an inductive type for
  the commands passed to [invoke], a state monad over the React state and the
  browser (Web Storage, the log of [invoke] calls, console, alerts), and the
  handlers written in that monad, statement by statement.

  The Rust engine itself is not part of the sources; where a property is
  decided there, the engine is modelled from the specification in
  [Module Engine], and every such definition says so.

  Text is [string]: each character stands for one UTF-16 code unit of the
  JavaScript string, so [String.length] is [.length].  The one function
  that looks inside a string, [validatePassword], takes the sequence of
  code units itself.  A promise is modelled once settled, and a handler
  runs to completion before the next one starts. *)

From Stdlib Require Import NArith ZArith List String Ascii Bool Lia.
From stdpp Require Import base option list gmap strings.

Import ListNotations.
Local Open Scope string_scope.

(* ===================================================================== *)
(** * JavaScript values that the code inspects dynamically *)
(* ===================================================================== *)

Module Js.

(** Classes of error objects that can reach a [catch].  Every one of them
    satisfies [instanceof Error]; [ApiError] is the class declared in
    [api.ts]. *)
Inductive ErrorClass := ClsError | ClsTypeError | ClsApiError.

(** A thrown value.  [catch (error)] receives any JavaScript value; the code
    only ever asks [typeof error === 'string'], [error instanceof Error] and
    reads [error.message]. *)
Inductive Value :=
| Undefined
| Null
| Bool (b : bool)
| Number (n : Z)
| Str (s : string)
| ErrorObj (cls : ErrorClass) (name message : string) (code : option string)
| PlainObject (fields : list (string * string)).

Definition typeof_string (v : Value) : bool :=
  match v with Str _ => true | _ => false end.

Definition instanceof_Error (v : Value) : bool :=
  match v with ErrorObj _ _ _ _ => true | _ => false end.

Definition instanceof_ApiError (v : Value) : bool :=
  match v with ErrorObj ClsApiError _ _ _ => true | _ => false end.

(** [error.message] of an error object. *)
Definition message_of (v : Value) : string :=
  match v with ErrorObj _ _ m _ => m | _ => "" end.

(** Truthiness of a string and of a [string | null | undefined]. *)
Definition truthy (s : string) : bool := negb (String.eqb s "").

Definition truthy_opt (o : option string) : bool :=
  match o with Some s => truthy s | None => false end.

(** A settled promise: fulfilled with a value or rejected with a thrown
    value.  [await] turns the second into an exception. *)
Inductive Outcome (T : Type) :=
| Resolved (v : T)
| Rejected (error : Value).
Arguments Resolved {T} v.
Arguments Rejected {T} error.

End Js.
Export Js.

(* ===================================================================== *)
(** * [src/types/index.ts]: requests, responses, application state *)
(* ===================================================================== *)

Module Types.

Record SetupRequest := {
  su_master_password : string;
  question1 : string; answer1 : string;
  question2 : string; answer2 : string;
  question3 : string; answer3 : string }.

Record LoginRequest := { master_password : string }.

Record SecurityQuestion := { question : string }.

Record RecoveryRequest := {
  rc_answer1 : string; rc_answer2 : string; rc_answer3 : string }.

Record ResetPasswordRequest := {
  new_master_password : string;
  rs_answer1 : string; rs_answer2 : string; rs_answer3 : string }.

Record AuthResponse := {
  success : bool;
  message : string;
  master_key : option string }.

(** [notes] is not declared in [types/index.ts]; the dashboard's modals put
    it in the object literal they send, so it is part of the payload. *)
Record AddPasswordRequest := {
  ap_software : string; ap_account : string; ap_password : string;
  ap_notes : option string;
  ap_master_key : string }.

Record UpdatePasswordRequest := {
  up_id : Z;
  up_software : string; up_account : string; up_password : string;
  up_notes : option string;
  up_master_key : string }.

Record DeletePasswordRequest := { dp_id : Z }.

Record GetPasswordsRequest := {
  gp_master_key : string;
  search_query : option string }.

Record DecryptPasswordRequest := { dc_id : Z; dc_master_key : string }.

(** [id] is [entry_id] here: [id] is the identity function of the library. *)
Record PasswordEntry := {
  entry_id : Z;
  software : string;
  account : string;
  password : option string;
  notes : option string;
  created_at : option string }.

(** [data?: any]: the dashboard uses it as the entry list for the list and
    search commands and as one entry for [get_password]; [D] is that use.
    Arrays and objects are truthy, so [response.data] in a condition is
    [is_Some]. *)
Record PasswordResponse (D : Type) := {
  pr_success : bool;
  pr_message : string;
  data : option D }.
Arguments pr_success {D} _.
Arguments pr_message {D} _.
Arguments data {D} _.

Record ExportRequest := { export_passphrase : string; ex_file_path : string }.
Record ImportRequest := { import_passphrase : string; im_file_path : string }.

Record ExportResponse := {
  ex_success : bool; ex_message : string; file_path : option string }.

Record ImportResponse := {
  im_success : bool; im_message : string; imported_entries_count : option Z }.

Record AppState := {
  isAuthenticated : bool;
  masterKey : option string;
  isSetup : bool;
  loading : bool;
  error : option string }.

End Types.
Export Types.

(* ===================================================================== *)
(** * The browser and the state monad the handlers run in *)
(* ===================================================================== *)

Module Ipc.

(** One constructor per [invoke('<command>', payload)] of [api.ts]; the
    arguments are the fields of the payload object. *)
Inductive Command :=
| is_app_setup
| setup_app (request : SetupRequest)
| login (request : LoginRequest)
| get_security_questions
| verify_recovery_answers (request : RecoveryRequest)
| reset_master_password (request : ResetPasswordRequest)
| change_master_password (currentPassword newPassword : string)
| add_password (request : AddPasswordRequest)
| get_all_passwords (request : GetPasswordsRequest)
| get_password (request : DecryptPasswordRequest)
| update_password (request : UpdatePasswordRequest)
| delete_password (request : DeletePasswordRequest)
| search_passwords (query masterKey : string)
| get_password_count
| export_data (request : ExportRequest)
| import_data (request : ImportRequest)
| preview_import (request : ImportRequest)
| create_backup (exportPassphrase : string) (backupPath : option string)
| validate_export_file (filePath passphrase : string)
| get_export_info (filePath : string)
| get_app_data_dir
| get_default_backup_dir.

(** The engine behind [invoke], as far as the front end can see it: for each
    command, how the returned promise settles.  The engine's code is not among
    the sources, so every handler is parametric in it. *)
Record Backend := {
  on_is_app_setup : Outcome bool;
  on_setup_app : SetupRequest -> Outcome AuthResponse;
  on_login : LoginRequest -> Outcome AuthResponse;
  on_add_password : AddPasswordRequest -> Outcome (PasswordResponse unit);
  on_get_all_passwords :
    GetPasswordsRequest -> Outcome (PasswordResponse (list PasswordEntry));
  on_get_password :
    DecryptPasswordRequest -> Outcome (PasswordResponse PasswordEntry);
  on_update_password : UpdatePasswordRequest -> Outcome (PasswordResponse unit);
  on_delete_password : DeletePasswordRequest -> Outcome (PasswordResponse unit);
  on_search_passwords :
    string -> string -> Outcome (PasswordResponse (list PasswordEntry));
  on_create_backup : string -> option string -> Outcome ExportResponse }.

End Ipc.

Module Browser.

(** What a handler can touch outside React state: the two Web Storage areas,
    the [invoke] calls issued so far (oldest first), the labels passed to
    [console.log]/[console.error], the texts passed to [alert], and
    [window.location.hash]. *)
Record t := {
  sessionStorage : gmap string string;
  localStorage : gmap string string;
  ipc : list Ipc.Command;
  console : list string;
  alerts : list string;
  hash : string }.

Definition fresh : t :=
  {| sessionStorage := ∅; localStorage := ∅; ipc := []; console := [];
     alerts := []; hash := "" |}.

End Browser.

(** A world is the React state [S] of the component whose handler runs,
    together with the browser. *)
Record World (S : Type) := { ui : S; browser : Browser.t }.
Arguments ui {S} _.
Arguments browser {S} _.

(** Handlers are state transformers over a world. *)
Definition M (S A : Type) : Type := World S -> A * World S.

Definition ret {S A} (a : A) : M S A := fun w => (a, w).

Definition bind {S A B} (m : M S A) (k : A -> M S B) : M S B :=
  fun w => let (a, w') := m w in k a w'.

Notation "x <- m ;; k" := (bind m (fun x => k))
  (at level 100, m at next level, right associativity).
Notation "m ;;; k" := (bind m (fun _ => k))
  (at level 100, right associativity).

(** [setX(prev => f prev)] of a [useState] hook. *)
Definition setState {S} (f : S -> S) : M S unit :=
  fun w => (tt, {| ui := f (ui w); browser := browser w |}).

(** The state as the handler's closure sees it. *)
Definition getState {S} : M S S := fun w => (ui w, w).

Definition getBrowser {S} : M S Browser.t := fun w => (browser w, w).

Definition modifyBrowser {S} (f : Browser.t -> Browser.t) : M S unit :=
  fun w => (tt, {| ui := ui w; browser := f (browser w) |}).

Definition run {S A} (m : M S A) (w : World S) : World S := snd (m w).
Definition result {S A} (m : M S A) (w : World S) : A := fst (m w).

Module Effects.
Import Browser.

Definition sessionStorage_setItem {S} (k v : string) : M S unit :=
  modifyBrowser (fun b =>
    {| sessionStorage := <[k := v]> (sessionStorage b);
       localStorage := localStorage b; ipc := ipc b; console := console b;
       alerts := alerts b; hash := hash b |}).

Definition sessionStorage_removeItem {S} (k : string) : M S unit :=
  modifyBrowser (fun b =>
    {| sessionStorage := delete k (sessionStorage b);
       localStorage := localStorage b; ipc := ipc b; console := console b;
       alerts := alerts b; hash := hash b |}).

Definition sessionStorage_getItem {S} (k : string) : M S (option string) :=
  b <- getBrowser ;; ret (sessionStorage b !! k).

Definition localStorage_setItem {S} (k v : string) : M S unit :=
  modifyBrowser (fun b =>
    {| sessionStorage := sessionStorage b;
       localStorage := <[k := v]> (localStorage b); ipc := ipc b;
       console := console b; alerts := alerts b; hash := hash b |}).

(** [invoke(cmd, payload)]: the call is recorded; how it settles is the
    engine's business. *)
Definition invoke {S T} (c : Ipc.Command) (settles : Outcome T)
  : M S (Outcome T) :=
  modifyBrowser (fun b =>
    {| sessionStorage := sessionStorage b; localStorage := localStorage b;
       ipc := ipc b ++ [c]; console := console b; alerts := alerts b;
       hash := hash b |}) ;;;
  ret settles.

Definition console_log {S} (label : string) : M S unit :=
  modifyBrowser (fun b =>
    {| sessionStorage := sessionStorage b; localStorage := localStorage b;
       ipc := ipc b; console := console b ++ [label]; alerts := alerts b;
       hash := hash b |}).

Definition alert {S} (text : string) : M S unit :=
  modifyBrowser (fun b =>
    {| sessionStorage := sessionStorage b; localStorage := localStorage b;
       ipc := ipc b; console := console b; alerts := alerts b ++ [text];
       hash := hash b |}).

Definition set_location_hash {S} (h : string) : M S unit :=
  modifyBrowser (fun b =>
    {| sessionStorage := sessionStorage b; localStorage := localStorage b;
       ipc := ipc b; console := console b; alerts := alerts b; hash := h |}).

End Effects.

(* ===================================================================== *)
(** * [src/utils/api.ts] *)
(* ===================================================================== *)

(** ** A matcher for the regular expressions of [validation]

    A JavaScript string is a sequence of UTF-16 code units; [length] counts
    them and a regular expression without the [u] flag matches them one at a
    time. *)
Module Regex.

Definition code_unit := N.

(** The code units of a literal. *)
Definition units (s : string) : list code_unit :=
  map (fun c => N.of_nat (nat_of_ascii c)) (list_ascii_of_string s).

(** LineTerminator: LF, CR, LS and PS.  [.] matches anything else. *)
Definition is_line_terminator (c : code_unit) : bool :=
  (c =? 10)%N || (c =? 13)%N || (c =? 8232)%N || (c =? 8233)%N.

Inductive atom :=
| Dot
| Range (lo hi : code_unit)
| Digit.

Definition atom_matches (a : atom) (c : code_unit) : bool :=
  match a with
  | Dot => negb (is_line_terminator c)
  | Range lo hi => (lo <=? c)%N && (c <=? hi)%N
  | Digit => (48 <=? c)%N && (c <=? 57)%N
  end.

Inductive regex :=
| Atom (a : atom)
| Star (a : atom)
| Seq (r1 r2 : regex)
| Lookahead (r : regex).

(** [a*] followed by the continuation [k]: some number of leading units
    matched by [a], then [k] on the rest.  Backtracking finds a split if one
    exists, so the result is the disjunction over the splits. *)
Fixpoint star_then (a : atom) (k : list code_unit -> bool)
  (s : list code_unit) : bool :=
  k s ||
  match s with
  | [] => false
  | c :: s' => atom_matches a c && star_then a k s'
  end.

(** [matches r k s]: [r] matches a prefix of [s] and [k] accepts what is
    left.  A lookahead consumes nothing. *)
Fixpoint matches (r : regex) (k : list code_unit -> bool)
  (s : list code_unit) : bool :=
  match r with
  | Atom a =>
      match s with
      | [] => false
      | c :: s' => atom_matches a c && k s'
      end
  | Star a => star_then a k s
  | Seq r1 r2 => matches r1 (matches r2 k) s
  | Lookahead r' => matches r' (fun _ => true) s && k s
  end.

(** [r.test(s)] for a pattern without anchors and flags: a match may start
    at any index. *)
Fixpoint test (r : regex) (s : list code_unit) : bool :=
  matches r (fun _ => true) s ||
  match s with
  | [] => false
  | _ :: s' => test r s'
  end.

(** [.*] followed by one unit of class [a], nothing required after it:
    the body of each lookahead of the password pattern. *)
Definition on_line (a : atom) (s : list code_unit) : bool :=
  matches (Seq (Star Dot) (Atom a)) (fun _ => true) s.

End Regex.

Module Api.
Import Browser Effects.

(** *** [userApi] *)
Definition userApi_isAppSetup {S} (be : Ipc.Backend) : M S (Outcome bool) :=
  invoke Ipc.is_app_setup (Ipc.on_is_app_setup be).

Definition userApi_setupApp {S} (be : Ipc.Backend) (request : SetupRequest)
  : M S (Outcome AuthResponse) :=
  invoke (Ipc.setup_app request) (Ipc.on_setup_app be request).

Definition userApi_login {S} (be : Ipc.Backend) (request : LoginRequest)
  : M S (Outcome AuthResponse) :=
  invoke (Ipc.login request) (Ipc.on_login be request).

(** *** [passwordApi] *)
Definition passwordApi_addPassword {S} (be : Ipc.Backend)
  (request : AddPasswordRequest) : M S (Outcome (PasswordResponse unit)) :=
  invoke (Ipc.add_password request) (Ipc.on_add_password be request).

Definition passwordApi_getAllPasswords {S} (be : Ipc.Backend)
  (request : GetPasswordsRequest)
  : M S (Outcome (PasswordResponse (list PasswordEntry))) :=
  invoke (Ipc.get_all_passwords request) (Ipc.on_get_all_passwords be request).

Definition passwordApi_getPassword {S} (be : Ipc.Backend)
  (request : DecryptPasswordRequest)
  : M S (Outcome (PasswordResponse PasswordEntry)) :=
  invoke (Ipc.get_password request) (Ipc.on_get_password be request).

Definition passwordApi_updatePassword {S} (be : Ipc.Backend)
  (request : UpdatePasswordRequest) : M S (Outcome (PasswordResponse unit)) :=
  invoke (Ipc.update_password request) (Ipc.on_update_password be request).

Definition passwordApi_deletePassword {S} (be : Ipc.Backend)
  (request : DeletePasswordRequest) : M S (Outcome (PasswordResponse unit)) :=
  invoke (Ipc.delete_password request) (Ipc.on_delete_password be request).

Definition passwordApi_searchPasswords {S} (be : Ipc.Backend)
  (query masterKey : string)
  : M S (Outcome (PasswordResponse (list PasswordEntry))) :=
  invoke (Ipc.search_passwords query masterKey)
         (Ipc.on_search_passwords be query masterKey).

(** *** [exportApi] *)
(** [backupPath: backupPath || null]: an empty path is sent as [null]. *)
Definition exportApi_createBackup {S} (be : Ipc.Backend)
  (exportPassphrase : string) (backupPath : option string)
  : M S (Outcome ExportResponse) :=
  let path := if Js.truthy_opt backupPath then backupPath else None in
  invoke (Ipc.create_backup exportPassphrase path)
         (Ipc.on_create_backup be exportPassphrase path).

(** *** [class ApiError extends Error] *)
Definition new_ApiError (message : string) : Js.Value :=
  Js.ErrorObj Js.ClsApiError "ApiError" message None.

(** *** [handleApiCall] *)
Definition handleApiCall {S T} (apiCall : M S (Outcome T)) : M S (Outcome T) :=
  r <- apiCall ;;
  match r with
  | Resolved v => ret (Resolved v)
  | Rejected error =>
      console_log "API call failed:" ;;;
      match error with
      | Js.Str s =>                       (* typeof error === 'string' *)
          ret (Rejected (new_ApiError s))
      | Js.ErrorObj _ _ m _ =>            (* error instanceof Error *)
          ret (Rejected (new_ApiError m))
      | _ => ret (Rejected (new_ApiError "An unknown error occurred"))
      end
  end.

(** *** [validation] *)
Record Validation := { isValid : bool; v_message : option string }.

(** [/(?=.*[a-z])(?=.*[A-Z])(?=.*\d)/] *)
Definition password_regex : Regex.regex :=
  Regex.Seq
    (Regex.Lookahead (Regex.Seq (Regex.Star Regex.Dot)
                                (Regex.Atom (Regex.Range 97%N 122%N))))
    (Regex.Seq
       (Regex.Lookahead (Regex.Seq (Regex.Star Regex.Dot)
                                   (Regex.Atom (Regex.Range 65%N 90%N))))
       (Regex.Lookahead (Regex.Seq (Regex.Star Regex.Dot)
                                   (Regex.Atom Regex.Digit)))).

Definition validatePassword (password : list Regex.code_unit) : Validation :=
  if (length password <? 8)%nat then
    {| isValid := false;
       v_message := Some "Password must be at least 8 characters long" |}
  else if negb (Regex.test password_regex password) then
    {| isValid := false;
       v_message := Some "Password must contain at least one lowercase letter, one uppercase letter, and one number" |}
  else {| isValid := true; v_message := None |}.

Definition validatePasswordMatch (password confirmPassword : string)
  : Validation :=
  if negb (String.eqb password confirmPassword) then
    {| isValid := false; v_message := Some "Passwords do not match" |}
  else {| isValid := true; v_message := None |}.

(** *** [secureStorage] *)
Definition setMasterKey {S} (key : string) : M S unit :=
  sessionStorage_setItem "masterKey" key.

Definition getMasterKey {S} : M S (option string) :=
  sessionStorage_getItem "masterKey".

Definition clearMasterKey {S} : M S unit :=
  sessionStorage_removeItem "masterKey".

(** [String(isAuthenticated)] *)
Definition String_of_bool (b : bool) : string :=
  if b then "true" else "false".

Definition setAuthState {S} (isAuthenticated : bool) : M S unit :=
  sessionStorage_setItem "isAuthenticated" (String_of_bool isAuthenticated).

Definition getAuthState {S} : M S bool :=
  v <- sessionStorage_getItem "isAuthenticated" ;;
  ret (match v with Some s => String.eqb s "true" | None => false end).

Definition clearAuthState {S} : M S unit :=
  sessionStorage_removeItem "isAuthenticated".

Definition clearAll {S} : M S unit :=
  @clearMasterKey S ;;; clearAuthState.

End Api.

(* ===================================================================== *)
(** * [hooks/useAuth]: the [AuthProvider] *)
(* ===================================================================== *)

Module Auth.
Import Effects Api.

(** The two [useState] cells of the provider. *)
Record Ui := { state : AppState; isLoading : bool }.

Definition initial : Ui :=
  {| state := {| isAuthenticated := false; masterKey := None;
                 isSetup := false; loading := true; error := None |};
     isLoading := false |}.

(** [setState(prev => ...)] and [setIsLoading(...)]. *)
Definition setAppState (f : AppState -> AppState) : M Ui unit :=
  setState (fun u => {| state := f (state u); isLoading := isLoading u |}).

Definition setIsLoading (b : bool) : M Ui unit :=
  setState (fun u => {| state := state u; isLoading := b |}).

(** [error instanceof Error ? error.message : fallback] *)
Definition message_or (fallback : string) (err : Js.Value) : string :=
  if Js.instanceof_Error err then Js.message_of err else fallback.

(** The effect run on mount. *)
Definition initializeAuth (be : Ipc.Backend) : M Ui unit :=
  r <- handleApiCall (userApi_isAppSetup be) ;;
  match r with
  | Resolved isSetup0 =>
      wasAuthenticated <- getAuthState ;;
      masterKey0 <- getMasterKey ;;
      setAppState (fun prev =>
        {| isAuthenticated := wasAuthenticated && Js.truthy_opt masterKey0;
           masterKey := masterKey0;
           isSetup := isSetup0;
           loading := false;
           error := error prev |})
  | Rejected err =>
      console_log "Failed to initialize auth:" ;;;
      setAppState (fun prev =>
        {| isAuthenticated := isAuthenticated prev;
           masterKey := masterKey prev;
           isSetup := isSetup prev;
           loading := false;
           error := Some (message_or "Failed to initialize" err) |})
  end.

Definition login (be : Ipc.Backend) (masterPassword : string)
  : M Ui AuthResponse :=
  setIsLoading true ;;;
  setAppState (fun prev =>
    {| isAuthenticated := isAuthenticated prev; masterKey := masterKey prev;
       isSetup := isSetup prev; loading := loading prev; error := None |}) ;;;
  r <- handleApiCall
         (userApi_login be {| master_password := masterPassword |}) ;;
  returned <-
    match r with
    | Resolved response =>
        (if success response && Js.truthy_opt (master_key response) then
           setMasterKey (default "" (master_key response)) ;;;
           setAuthState true ;;;
           setAppState (fun prev =>
             {| isAuthenticated := true;
                masterKey := master_key response;
                isSetup := isSetup prev; loading := loading prev;
                error := error prev |})
         else
           setAppState (fun prev =>
             {| isAuthenticated := isAuthenticated prev;
                masterKey := masterKey prev;
                isSetup := isSetup prev; loading := loading prev;
                error := Some (message response) |})) ;;;
        ret response
    | Rejected err =>
        let errorMessage := message_or "Login failed" err in
        setAppState (fun prev =>
          {| isAuthenticated := isAuthenticated prev;
             masterKey := masterKey prev;
             isSetup := isSetup prev; loading := loading prev;
             error := Some errorMessage |}) ;;;
        ret {| success := false; message := errorMessage;
               master_key := None |}
    end ;;
  setIsLoading false ;;;          (* finally *)
  ret returned.

Definition logout : M Ui unit :=
  clearAll ;;;
  setAppState (fun prev =>
    {| isAuthenticated := false; masterKey := None;
       isSetup := isSetup prev; loading := loading prev; error := None |}).

Definition checkSetup (be : Ipc.Backend) : M Ui unit :=
  r <- handleApiCall (userApi_isAppSetup be) ;;
  match r with
  | Resolved isSetup0 =>
      setAppState (fun prev =>
        {| isAuthenticated := isAuthenticated prev;
           masterKey := masterKey prev;
           isSetup := isSetup0; loading := loading prev;
           error := error prev |})
  | Rejected err =>
      console_log "Failed to check setup status:" ;;;
      setAppState (fun prev =>
        {| isAuthenticated := isAuthenticated prev;
           masterKey := masterKey prev;
           isSetup := isSetup prev; loading := loading prev;
           error := Some (message_or "Failed to check setup" err) |})
  end.

End Auth.

(** A handler of a provider run from a component that holds the provider's
    state as a part [T] of its own state [S]. *)
Definition zoom {S T A} (get : S -> T) (put : T -> S -> S) (m : M T A)
  : M S A :=
  fun w =>
    let (a, w') := m {| ui := get (ui w); browser := browser w |} in
    (a, {| ui := put (ui w') (ui w); browser := browser w' |}).

(* ===================================================================== *)
(** * [pages/SetupPage] *)
(* ===================================================================== *)

Module Setup.
Import Effects Api.

Record SetupFormData := {
  masterPassword : string;
  confirmPassword : string;
  question1 : string; answer1 : string;
  question2 : string; answer2 : string;
  question3 : string; answer3 : string }.

(** [Partial<SetupFormData>]: a key is present or not. *)
Record Errors := {
  e_masterPassword : option string;
  e_confirmPassword : option string;
  e_question1 : option string; e_answer1 : option string;
  e_question2 : option string; e_answer2 : option string;
  e_question3 : option string; e_answer3 : option string }.

Definition no_errors : Errors :=
  {| e_masterPassword := None; e_confirmPassword := None;
     e_question1 := None; e_answer1 := None;
     e_question2 := None; e_answer2 := None;
     e_question3 := None; e_answer3 := None |}.

(** [Object.keys(newErrors).length] *)
Definition keys_length (e : Errors) : nat :=
  length (omap (fun o : option string => o)
    [e_masterPassword e; e_confirmPassword e;
     e_question1 e; e_answer1 e; e_question2 e; e_answer2 e;
     e_question3 e; e_answer3 e]).

Record Ui := {
  auth : Auth.Ui;               (* useAuth() *)
  formData : SetupFormData;
  errors : Errors;
  isLoading : bool }.

Definition setErrors (e : Errors) : M Ui unit :=
  setState (fun u => {| auth := auth u; formData := formData u;
                        errors := e; isLoading := isLoading u |}).

Definition setIsLoading (b : bool) : M Ui unit :=
  setState (fun u => {| auth := auth u; formData := formData u;
                        errors := errors u; isLoading := b |}).

(** [checkSetup] of the context. *)
Definition checkSetup (be : Ipc.Backend) : M Ui unit :=
  zoom auth
       (fun a u => {| auth := a; formData := formData u;
                      errors := errors u; isLoading := isLoading u |})
       (Auth.checkSetup be).

Section WithTranslation.
(** [t(key, params)] of the language context; the tables [en] and [zh] are
    not among the sources. *)
Variable t : string -> list (string * string) -> string.

Definition required (value : string) (msg : string) : option string :=
  if negb (Js.truthy value) then Some msg else None.

Definition validateForm : M Ui bool :=
  u <- getState ;;
  let fd := formData u in
  let newErrors :=
    {| e_masterPassword :=
         if negb (Js.truthy (masterPassword fd)) then
           Some (t "auth.passwordRequired" [])
         else if (String.length (masterPassword fd) <? 8)%nat then
           Some (t "setup.passwordTooShort" [])
         else None;
       e_confirmPassword :=
         if negb (String.eqb (masterPassword fd) (confirmPassword fd)) then
           Some (t "setup.passwordMismatch" [])
         else None;
       e_question1 :=
         required (question1 fd) (t "setup.questionRequired" [("num", "1")]);
       e_answer1 :=
         required (answer1 fd) (t "setup.answerRequired" [("num", "1")]);
       e_question2 :=
         required (question2 fd) (t "setup.questionRequired" [("num", "2")]);
       e_answer2 :=
         required (answer2 fd) (t "setup.answerRequired" [("num", "2")]);
       e_question3 :=
         required (question3 fd) (t "setup.questionRequired" [("num", "3")]);
       e_answer3 :=
         required (answer3 fd) (t "setup.answerRequired" [("num", "3")]) |} in
  setErrors newErrors ;;;
  ret (keys_length newErrors =? 0)%nat.

Definition setupRequest_of (fd : SetupFormData) : SetupRequest :=
  {| su_master_password := masterPassword fd;
     Types.question1 := question1 fd; Types.answer1 := answer1 fd;
     Types.question2 := question2 fd; Types.answer2 := answer2 fd;
     Types.question3 := question3 fd; Types.answer3 := answer3 fd |}.

Definition handleSubmit (be : Ipc.Backend) : M Ui unit :=
  valid <- validateForm ;;
  if negb valid then ret tt else
  setIsLoading true ;;;
  u <- getState ;;
  let setupRequest := setupRequest_of (formData u) in
  r <- handleApiCall (userApi_setupApp be setupRequest) ;;
  match r with
  | Resolved response =>
      if success response && Js.truthy_opt (master_key response) then
        setMasterKey (default "" (master_key response)) ;;;
        setAuthState true ;;;
        checkSetup be ;;;
        set_location_hash "/dashboard"
      else
        setErrors
          {| e_masterPassword := Some (message response);
             e_confirmPassword := None;
             e_question1 := None; e_answer1 := None;
             e_question2 := None; e_answer2 := None;
             e_question3 := None; e_answer3 := None |}
  | Rejected err =>
      console_log "Setup failed:" ;;;
      setErrors
        {| e_masterPassword := Some (Auth.message_or "Setup failed" err);
           e_confirmPassword := None;
           e_question1 := None; e_answer1 := None;
           e_question2 := None; e_answer2 := None;
           e_question3 := None; e_answer3 := None |}
  end ;;;
  setIsLoading false.             (* finally *)

End WithTranslation.

(** The question/answer pairs a setup request carries. *)
Definition qa_pairs (r : SetupRequest) : list (string * string) :=
  [(Types.question1 r, Types.answer1 r);
   (Types.question2 r, Types.answer2 r);
   (Types.question3 r, Types.answer3 r)].

(** The answers a recovery request carries. *)
Definition recovery_answers (r : RecoveryRequest) : list string :=
  [rc_answer1 r; rc_answer2 r; rc_answer3 r].

End Setup.

(* ===================================================================== *)
(** * [pages/DashboardPage]

    The sources hold two versions of the page.  The later one, with the
    edit and export modals and the [notes] field, is embedded; the earlier
    one has the same handlers with the same guards, and a
    [handleDeletePassword] that is likewise not gated on the key. *)
(* ===================================================================== *)

Module Dashboard.
Import Effects Api.

Record Ui := {
  auth : Auth.Ui;                           (* useAuth() *)
  passwords : list PasswordEntry;
  loading : bool;
  searchQuery : string;
  showAddForm : bool;
  showEditForm : bool;
  editingPassword : option PasswordEntry;
  selectedPassword : option PasswordEntry;
  showPassword : option Z;
  showExportModal : bool;
  copiedPasswordId : option Z }.

Definition initial (a : Auth.Ui) : Ui :=
  {| auth := a; passwords := []; loading := true; searchQuery := "";
     showAddForm := false; showEditForm := false; editingPassword := None;
     selectedPassword := None; showPassword := None;
     showExportModal := false; copiedPasswordId := None |}.

(** [state] of [useAuth()]. *)
Definition state (u : Ui) : AppState := Auth.state (auth u).

Definition setPasswords (v : list PasswordEntry) : M Ui unit :=
  setState (fun u =>
    {| auth := auth u; passwords := v; loading := loading u;
       searchQuery := searchQuery u; showAddForm := showAddForm u;
       showEditForm := showEditForm u; editingPassword := editingPassword u;
       selectedPassword := selectedPassword u; showPassword := showPassword u;
       showExportModal := showExportModal u;
       copiedPasswordId := copiedPasswordId u |}).

Definition setLoading (v : bool) : M Ui unit :=
  setState (fun u =>
    {| auth := auth u; passwords := passwords u; loading := v;
       searchQuery := searchQuery u; showAddForm := showAddForm u;
       showEditForm := showEditForm u; editingPassword := editingPassword u;
       selectedPassword := selectedPassword u; showPassword := showPassword u;
       showExportModal := showExportModal u;
       copiedPasswordId := copiedPasswordId u |}).

Definition setShowEditForm (v : bool) : M Ui unit :=
  setState (fun u =>
    {| auth := auth u; passwords := passwords u; loading := loading u;
       searchQuery := searchQuery u; showAddForm := showAddForm u;
       showEditForm := v; editingPassword := editingPassword u;
       selectedPassword := selectedPassword u; showPassword := showPassword u;
       showExportModal := showExportModal u;
       copiedPasswordId := copiedPasswordId u |}).

Definition setEditingPassword (v : option PasswordEntry) : M Ui unit :=
  setState (fun u =>
    {| auth := auth u; passwords := passwords u; loading := loading u;
       searchQuery := searchQuery u; showAddForm := showAddForm u;
       showEditForm := showEditForm u; editingPassword := v;
       selectedPassword := selectedPassword u; showPassword := showPassword u;
       showExportModal := showExportModal u;
       copiedPasswordId := copiedPasswordId u |}).

Definition setSelectedPassword (v : option PasswordEntry) : M Ui unit :=
  setState (fun u =>
    {| auth := auth u; passwords := passwords u; loading := loading u;
       searchQuery := searchQuery u; showAddForm := showAddForm u;
       showEditForm := showEditForm u; editingPassword := editingPassword u;
       selectedPassword := v; showPassword := showPassword u;
       showExportModal := showExportModal u;
       copiedPasswordId := copiedPasswordId u |}).

Definition setShowPassword (v : option Z) : M Ui unit :=
  setState (fun u =>
    {| auth := auth u; passwords := passwords u; loading := loading u;
       searchQuery := searchQuery u; showAddForm := showAddForm u;
       showEditForm := showEditForm u; editingPassword := editingPassword u;
       selectedPassword := selectedPassword u; showPassword := v;
       showExportModal := showExportModal u;
       copiedPasswordId := copiedPasswordId u |}).

Definition setShowAddForm (v : bool) : M Ui unit :=
  setState (fun u =>
    {| auth := auth u; passwords := passwords u; loading := loading u;
       searchQuery := searchQuery u; showAddForm := v;
       showEditForm := showEditForm u; editingPassword := editingPassword u;
       selectedPassword := selectedPassword u; showPassword := showPassword u;
       showExportModal := showExportModal u;
       copiedPasswordId := copiedPasswordId u |}).

Definition setShowExportModal (v : bool) : M Ui unit :=
  setState (fun u =>
    {| auth := auth u; passwords := passwords u; loading := loading u;
       searchQuery := searchQuery u; showAddForm := showAddForm u;
       showEditForm := showEditForm u; editingPassword := editingPassword u;
       selectedPassword := selectedPassword u; showPassword := showPassword u;
       showExportModal := v;
       copiedPasswordId := copiedPasswordId u |}).

(** [logout] of the context. *)
Definition logout : M Ui unit :=
  zoom auth
       (fun a u =>
          {| auth := a; passwords := passwords u; loading := loading u;
             searchQuery := searchQuery u; showAddForm := showAddForm u;
             showEditForm := showEditForm u;
             editingPassword := editingPassword u;
             selectedPassword := selectedPassword u;
             showPassword := showPassword u;
             showExportModal := showExportModal u;
             copiedPasswordId := copiedPasswordId u |})
       Auth.logout.

Definition loadPasswords (be : Ipc.Backend) : M Ui unit :=
  u <- getState ;;
  if negb (Js.truthy_opt (masterKey (state u))) then ret tt else
  setLoading true ;;;
  r <- handleApiCall
         (passwordApi_getAllPasswords be
            {| gp_master_key := default "" (masterKey (state u));
               search_query := if Js.truthy (searchQuery u)
                               then Some (searchQuery u) else None |}) ;;
  match r with
  | Resolved response =>
      match pr_success response, data response with
      | true, Some entries => setPasswords entries
      | _, _ => ret tt
      end
  | Rejected _ => console_log "Failed to load passwords:"
  end ;;;
  setLoading false.               (* finally *)

Definition handleSearch (be : Ipc.Backend) : M Ui unit :=
  u <- getState ;;
  if negb (Js.truthy_opt (masterKey (state u))) then ret tt else
  setLoading true ;;;
  r <- handleApiCall
         (passwordApi_searchPasswords be (searchQuery u)
            (default "" (masterKey (state u)))) ;;
  match r with
  | Resolved response =>
      match pr_success response, data response with
      | true, Some entries => setPasswords entries
      | _, _ => ret tt
      end
  | Rejected _ => console_log "Search failed:"
  end ;;;
  setLoading false.               (* finally *)

Definition handleViewPassword (be : Ipc.Backend) (id : Z) : M Ui unit :=
  u <- getState ;;
  if negb (Js.truthy_opt (masterKey (state u))) then ret tt else
  r <- handleApiCall
         (passwordApi_getPassword be
            {| dc_id := id;
               dc_master_key := default "" (masterKey (state u)) |}) ;;
  match r with
  | Resolved response =>
      match pr_success response, data response with
      | true, Some entry =>
          setShowPassword (Some id) ;;; setSelectedPassword (Some entry)
      | _, _ => ret tt
      end
  | Rejected _ => console_log "Failed to decrypt password:"
  end.

Definition handleEditPassword (be : Ipc.Backend) (password : PasswordEntry)
  : M Ui unit :=
  u <- getState ;;
  if negb (Js.truthy_opt (masterKey (state u))) then ret tt else
  r <- handleApiCall
         (passwordApi_getPassword be
            {| dc_id := entry_id password;
               dc_master_key := default "" (masterKey (state u)) |}) ;;
  match r with
  | Resolved response =>
      match pr_success response, data response with
      | true, Some entry =>
          setEditingPassword (Some entry) ;;; setShowEditForm true
      | _, _ => ret tt
      end
  | Rejected _ => console_log "Failed to load password for editing:"
  end.

(** [confirmed] is what the user answers to [confirm(...)]. *)
Definition handleDeletePassword (be : Ipc.Backend) (confirmed : bool)
  (id : Z) : M Ui unit :=
  console_log "Delete button clicked for password ID:" ;;;
  console_log "User confirmed deletion:" ;;;
  if negb confirmed then ret tt else
  console_log "Attempting to delete password..." ;;;
  r <- handleApiCall (passwordApi_deletePassword be {| dp_id := id |}) ;;
  match r with
  | Resolved response =>
      console_log "Delete response:" ;;;
      if pr_success response then
        console_log "Password deleted successfully, reloading passwords..." ;;;
        loadPasswords be
      else
        console_log "Delete failed with message:" ;;;
        alert ("删除失败: " +:+ pr_message response)
  | Rejected err =>
      console_log "Failed to delete password:" ;;;
      alert ("删除失败: " +:+ Auth.message_or "未知错误" err)
  end.

(** ** The modals

    A modal is a child of the page: its world holds the page's state, on
    which the callbacks it receives as props act. *)

Record PasswordFormData := {
  f_software : string; f_account : string; f_password : string;
  f_notes : string }.

Record FormErrors := {
  e_software : option string; e_account : option string;
  e_password : option string }.

Definition keys_length (e : FormErrors) : nat :=
  length (omap (fun o : option string => o)
                [e_software e; e_account e; e_password e]).

Record ModalUi := {
  page : Ui;
  formData : PasswordFormData;
  errors : FormErrors;
  isLoading : bool }.

Definition setErrors (e : FormErrors) : M ModalUi unit :=
  setState (fun u => {| page := page u; formData := formData u; errors := e;
                        isLoading := isLoading u |}).

Definition setIsLoading (b : bool) : M ModalUi unit :=
  setState (fun u => {| page := page u; formData := formData u;
                        errors := errors u; isLoading := b |}).

Definition on_page {A} (m : M Ui A) : M ModalUi A :=
  zoom page
       (fun p u => {| page := p; formData := formData u; errors := errors u;
                      isLoading := isLoading u |})
       m.

(** The [onSuccess] props the page passes to the two modals. *)
Definition add_onSuccess (be : Ipc.Backend) : M ModalUi unit :=
  on_page (setShowAddForm false ;;; loadPasswords be).

Definition edit_onSuccess (be : Ipc.Backend) : M ModalUi unit :=
  on_page (setShowEditForm false ;;; setEditingPassword None ;;;
           loadPasswords be).

Section Modals.
Variable t : string -> list (string * string) -> string.
(** The prop [masterKey: string], passed as [state.masterKey!]. *)
Variable masterKey : string.

Definition required_fields (fd : PasswordFormData) : FormErrors :=
  {| e_software := if negb (Js.truthy (f_software fd))
                   then Some (t "password.softwareRequired" []) else None;
     e_account := if negb (Js.truthy (f_account fd))
                  then Some (t "password.accountRequired" []) else None;
     e_password := if negb (Js.truthy (f_password fd))
                   then Some (t "password.passwordRequired" []) else None |}.

Definition only_software (msg : string) : FormErrors :=
  {| e_software := Some msg; e_account := None; e_password := None |}.

(** [AddPasswordModal]'s [handleSubmit]. *)
Definition add_handleSubmit (be : Ipc.Backend) : M ModalUi unit :=
  u <- getState ;;
  let fd := formData u in
  let newErrors := required_fields fd in
  if (0 <? keys_length newErrors)%nat then setErrors newErrors else
  setIsLoading true ;;;
  r <- handleApiCall
         (passwordApi_addPassword be
            {| ap_software := f_software fd; ap_account := f_account fd;
               ap_password := f_password fd; ap_notes := Some (f_notes fd);
               ap_master_key := masterKey |}) ;;
  match r with
  | Resolved response =>
      if pr_success response then add_onSuccess be
      else setErrors (only_software (pr_message response))
  | Rejected err =>
      console_log "Failed to add password:" ;;;
      setErrors (only_software (Auth.message_or "Failed to add password" err))
  end ;;;
  setIsLoading false.             (* finally *)

(** [EditPasswordModal]'s [handleSubmit]; [password] is the entry being
    edited. *)
Definition edit_handleSubmit (be : Ipc.Backend) (password : PasswordEntry)
  : M ModalUi unit :=
  u <- getState ;;
  let fd := formData u in
  let newErrors := required_fields fd in
  if (0 <? keys_length newErrors)%nat then setErrors newErrors else
  setIsLoading true ;;;
  r <- handleApiCall
         (passwordApi_updatePassword be
            {| up_id := entry_id password;
               up_software := f_software fd; up_account := f_account fd;
               up_password := f_password fd; up_notes := Some (f_notes fd);
               up_master_key := masterKey |}) ;;
  match r with
  | Resolved response =>
      if pr_success response then edit_onSuccess be
      else setErrors (only_software (pr_message response))
  | Rejected err =>
      console_log "Failed to update password:" ;;;
      setErrors
        (only_software (Auth.message_or "Failed to update password" err))
  end ;;;
  setIsLoading false.             (* finally *)

End Modals.

(** [ExportModal] *)
Record ExportUi := {
  ex_page : Ui;
  exportPassphrase : string;
  confirmPassphrase : string;
  ex_isLoading : bool;
  exportPath : string;
  ex_passphrase_error : option string;
  ex_confirm_error : option string }.

Definition set_export (f : ExportUi -> bool * string *
                                       (option string * option string))
  : M ExportUi unit :=
  setState (fun u =>
    let '(l, p, (e1, e2)) := f u in
    {| ex_page := ex_page u;
       exportPassphrase := exportPassphrase u;
       confirmPassphrase := confirmPassphrase u;
       ex_isLoading := l; exportPath := p;
       ex_passphrase_error := e1; ex_confirm_error := e2 |}).

Definition ex_setIsLoading (b : bool) : M ExportUi unit :=
  set_export (fun u => (b, exportPath u,
                        (ex_passphrase_error u, ex_confirm_error u))).

Definition ex_setExportPath (p : string) : M ExportUi unit :=
  set_export (fun u => (ex_isLoading u, p,
                        (ex_passphrase_error u, ex_confirm_error u))).

Definition ex_setErrors (e1 e2 : option string) : M ExportUi unit :=
  set_export (fun u => (ex_isLoading u, exportPath u, (e1, e2))).

(** The [onClose] prop: [() => setShowExportModal(false)]. *)
Definition export_onClose : M ExportUi unit :=
  zoom ex_page
       (fun p u =>
          {| ex_page := p; exportPassphrase := exportPassphrase u;
             confirmPassphrase := confirmPassphrase u;
             ex_isLoading := ex_isLoading u; exportPath := exportPath u;
             ex_passphrase_error := ex_passphrase_error u;
             ex_confirm_error := ex_confirm_error u |})
       (setShowExportModal false).

(** [response.message || t('export.failed')] *)
Definition or_else (s fallback : string) : string :=
  if Js.truthy s then s else fallback.

Definition handleExport (t : string -> list (string * string) -> string)
  (be : Ipc.Backend) : M ExportUi unit :=
  u <- getState ;;
  let e1 := if negb (Js.truthy (exportPassphrase u))
            then Some (t "export.passphraseRequired" []) else None in
  let e2 := if negb (String.eqb (exportPassphrase u) (confirmPassphrase u))
            then Some (t "export.passphrasesMismatch" []) else None in
  if bool_decide (is_Some e1) || bool_decide (is_Some e2) then
    ex_setErrors e1 e2
  else
  ex_setIsLoading true ;;;
  r <- handleApiCall (exportApi_createBackup be (exportPassphrase u) None) ;;
  match r with
  | Resolved response =>
      if ex_success response && Js.truthy_opt (file_path response) then
        let path := default "" (file_path response) in
        ex_setExportPath path ;;;
        alert (t "export.success" [] +:+ String "010"%char "" +:+
               t "export.savedTo" [] +:+ ": " +:+ path) ;;;
        export_onClose
      else
        ex_setErrors
          (Some (or_else (ex_message response) (t "export.failed" []))) None
  | Rejected err =>
      console_log "Export failed:" ;;;
      ex_setErrors
        (Some (if Js.instanceof_Error err then Js.message_of err
               else t "export.failed" []))
        None
  end ;;;
  ex_setIsLoading false.          (* finally *)

End Dashboard.

(* ===================================================================== *)
(** * [locales] and [contexts/LanguageContext] *)
(* ===================================================================== *)

Module Locale.
Import Effects.

Inductive Language := en | zh.

Definition code (l : Language) : string :=
  match l with en => "en" | zh => "zh" end.

Definition saveLanguage {S} (language : Language) : M S unit :=
  localStorage_setItem "pwdbox-language" (code language).

(** [setLanguage] of the provider; the React cell holding the language is
    not part of any world modelled here. *)
Definition setLanguage {S} (newLanguage : Language) : M S unit :=
  saveLanguage newLanguage.

End Locale.

(* ===================================================================== *)
(** * The application as a transition system *)
(* ===================================================================== *)

Module App.

Definition translation := string -> list (string * string) -> string.

(** The provider's state seen from the three places that hold it. *)
Definition of_setup (w : World Setup.Ui) : World Auth.Ui :=
  {| ui := Setup.auth (ui w); browser := browser w |}.

Definition of_dashboard (w : World Dashboard.Ui) : World Auth.Ui :=
  {| ui := Dashboard.auth (ui w); browser := browser w |}.

Definition of_modal (w : World Dashboard.ModalUi) : World Auth.Ui :=
  {| ui := Dashboard.auth (Dashboard.page (ui w)); browser := browser w |}.

Definition of_export (w : World Dashboard.ExportUi) : World Auth.Ui :=
  {| ui := Dashboard.auth (Dashboard.ex_page (ui w)); browser := browser w |}.

(** One step of the application: an operation of the provider, or a handler
    of a page run to completion.  The engine [be] may answer differently at
    every step, and the local state of a page ([s], [d], [m], [e]) is
    whatever the user has typed; only its view of the provider's state is
    tied to the world. *)
Inductive step : World Auth.Ui -> World Auth.Ui -> Prop :=
| step_mount be w :
    step w (run (Auth.initializeAuth be) w)
| step_login be masterPassword w :
    step w (run (Auth.login be masterPassword) w)
| step_logout w :
    step w (run Auth.logout w)
| step_checkSetup be w :
    step w (run (Auth.checkSetup be) w)
| step_setLanguage l w :
    step w (run (Locale.setLanguage l) w)
| step_setup (t : translation) be (s : World Setup.Ui) :
    step (of_setup s) (of_setup (run (Setup.handleSubmit t be) s))
| step_loadPasswords be (d : World Dashboard.Ui) :
    step (of_dashboard d) (of_dashboard (run (Dashboard.loadPasswords be) d))
| step_search be (d : World Dashboard.Ui) :
    step (of_dashboard d) (of_dashboard (run (Dashboard.handleSearch be) d))
| step_view be id (d : World Dashboard.Ui) :
    step (of_dashboard d)
         (of_dashboard (run (Dashboard.handleViewPassword be id) d))
| step_edit be entry (d : World Dashboard.Ui) :
    step (of_dashboard d)
         (of_dashboard (run (Dashboard.handleEditPassword be entry) d))
| step_delete be confirmed id (d : World Dashboard.Ui) :
    step (of_dashboard d)
         (of_dashboard (run (Dashboard.handleDeletePassword be confirmed id) d))
| step_add (t : translation) be k (m : World Dashboard.ModalUi) :
    masterKey (Dashboard.state (Dashboard.page (ui m))) = Some k ->
    step (of_modal m) (of_modal (run (Dashboard.add_handleSubmit t k be) m))
| step_update (t : translation) be k entry (m : World Dashboard.ModalUi) :
    masterKey (Dashboard.state (Dashboard.page (ui m))) = Some k ->
    step (of_modal m)
         (of_modal (run (Dashboard.edit_handleSubmit t k be entry) m))
| step_export (t : translation) be (e : World Dashboard.ExportUi) :
    step (of_export e) (of_export (run (Dashboard.handleExport t be) e)).

(** The worlds reachable from [w0]. *)
Inductive reachable (w0 : World Auth.Ui) : World Auth.Ui -> Prop :=
| reach_init : reachable w0 w0
| reach_step w w' : reachable w0 w -> step w w' -> reachable w0 w'.

(** The provider as first rendered, in a browser [b]. *)
Definition start (b : Browser.t) : World Auth.Ui :=
  {| ui := Auth.initial; browser := b |}.

(** The transitions of the provider alone. *)
Inductive auth_step : World Auth.Ui -> World Auth.Ui -> Prop :=
| auth_mount be w :
    auth_step w (run (Auth.initializeAuth be) w)
| auth_login be masterPassword w :
    auth_step w (run (Auth.login be masterPassword) w)
| auth_logout w :
    auth_step w (run Auth.logout w)
| auth_checkSetup be w :
    auth_step w (run (Auth.checkSetup be) w)
| auth_storage (b' : Browser.t) w :
    (* anything another component does to the browser *)
    auth_step w {| ui := ui w; browser := b' |}.

Inductive auth_reachable (w0 : World Auth.Ui) : World Auth.Ui -> Prop :=
| auth_reach_init : auth_reachable w0 w0
| auth_reach_step w w' :
    auth_reachable w0 w -> auth_step w w' -> auth_reachable w0 w'.

(** The session invariant: unlocked only with a key in hand. *)
Definition unlocked_has_key (s : AppState) : Prop :=
  isAuthenticated s = true -> exists k, masterKey s = Some k /\ k <> "".

End App.

(* ===================================================================== *)
(** * What crosses the boundary *)
(* ===================================================================== *)

Module Boundary.

(** The master keys a request carries: the [master_key] (or [masterKey])
    fields of its payload. *)
Definition request_keys (c : Ipc.Command) : list string :=
  match c with
  | Ipc.add_password r => [ap_master_key r]
  | Ipc.get_all_passwords r => [gp_master_key r]
  | Ipc.get_password r => [dc_master_key r]
  | Ipc.update_password r => [up_master_key r]
  | Ipc.search_passwords _ k => [k]
  | _ => []
  end.

(** The master keys an [AuthResponse] carries. *)
Definition response_keys (r : AuthResponse) : list string :=
  match master_key r with Some k => [k] | None => [] end.

(** All keys sent to the engine in a run of [invoke] calls. *)
Definition keys_sent (log : list Ipc.Command) : list string :=
  concat (map request_keys log).

(** The key is held by some Web Storage area. *)
Definition stored (k : string) (b : Browser.t) : Prop :=
  (exists name, Browser.sessionStorage b !! name = Some k) \/
  (exists name, Browser.localStorage b !! name = Some k).

End Boundary.

(* ===================================================================== *)
(** * The engine, from the specification *)
(* ===================================================================== *)

Module Engine.

(** Modelled from the spec: the byte strings ([bytes]) of sections 3 and 4,
    each byte a number below 256. *)
Definition bytes := list N.

Section Verifier.

(** Modelled from the spec: the key derivation function of section 4.1,
    [derive(secret, salt, params) -> key], deterministic; its code (the Rust
    engine) is not among the sources.  It is a parameter here. *)
Variable Params : Type.
Variable derive : string -> string -> Params -> string.

(** Modelled from the spec: the second, domain-separated derivation of
    section 4.3 that yields the WorkingKey. *)
Variable derive_working_key : string -> string -> Params -> string.

(** Modelled from the spec: the MasterSecretRecord of section 3. *)
Record MasterSecretRecord := {
  kdf_salt : string;
  verification_hash : string;
  kdf_params : Params }.

(** Modelled from the spec: a SecurityQuestion of section 3. *)
Record SecurityQuestion := {
  question_text : string;
  answer_salt : string;
  answer_hash : string;
  answer_params : Params }.

(** Modelled from the spec: what [setup] stores for a master password
    (section 4.3: [verification_hash = KDF(candidate_password, salt)]). *)
Definition master_record (password salt : string) (params : Params)
  : MasterSecretRecord :=
  {| kdf_salt := salt;
     verification_hash := derive password salt params;
     kdf_params := params |}.

(** Modelled from the spec: what [setup] stores for one answer. *)
Definition question_record (text answer salt : string) (params : Params)
  : SecurityQuestion :=
  {| question_text := text; answer_salt := salt;
     answer_hash := derive answer salt params; answer_params := params |}.

(** Modelled from the spec: [unlock(candidate_password)] of section 4.3, as
    the answer of the engine's [login] command.  On a match the response
    carries the WorkingKey; on a mismatch it is InvalidCredentials. *)
Definition unlock (rec : MasterSecretRecord) (candidate_password : string)
  : AuthResponse :=
  let h := derive candidate_password (kdf_salt rec) (kdf_params rec) in
  if String.eqb h (verification_hash rec) then
    {| success := true; message := "Unlocked";
       master_key := Some (derive_working_key candidate_password
                             (kdf_salt rec) (kdf_params rec)) |}
  else
    {| success := false; message := "InvalidCredentials";
       master_key := None |}.

(** Modelled from the spec: an engine that answers [login] with [unlock] and
    everything else as [other] does. *)
Definition backend (rec : MasterSecretRecord) (other : Ipc.Backend)
  : Ipc.Backend :=
  {| Ipc.on_is_app_setup := Ipc.on_is_app_setup other;
     Ipc.on_setup_app := Ipc.on_setup_app other;
     Ipc.on_login := fun request => Resolved (unlock rec (master_password request));
     Ipc.on_add_password := Ipc.on_add_password other;
     Ipc.on_get_all_passwords := Ipc.on_get_all_passwords other;
     Ipc.on_get_password := Ipc.on_get_password other;
     Ipc.on_update_password := Ipc.on_update_password other;
     Ipc.on_delete_password := Ipc.on_delete_password other;
     Ipc.on_search_passwords := Ipc.on_search_passwords other;
     Ipc.on_create_backup := Ipc.on_create_backup other |}.

(** Modelled from the spec: the comparison of one answer (section 4.5:
    recompute [KDF(answer_i, salt_i)] and compare to the stored hash). *)
Definition answer_verifies (q : SecurityQuestion) (answer : string) : bool :=
  String.eqb (derive answer (answer_salt q) (answer_params q)) (answer_hash q).

(** Modelled from the spec: [verify_answers(a1, a2, a3) -> bool] of section
    4.5, all three required; the three comparisons are always made and only
    their conjunction is returned. *)
Definition verify_answers (q1 q2 q3 : SecurityQuestion) (a1 a2 a3 : string)
  : bool :=
  let v1 := answer_verifies q1 a1 in
  let v2 := answer_verifies q2 a2 in
  let v3 := answer_verifies q3 a3 in
  v1 && v2 && v3.

(** Modelled from the spec: the engine's answer to the
    [verify_recovery_answers] command. *)
Definition verify_recovery_answers (q1 q2 q3 : SecurityQuestion)
  (request : RecoveryRequest) : bool :=
  verify_answers q1 q2 q3
    (rc_answer1 request) (rc_answer2 request) (rc_answer3 request).

End Verifier.

Section Cipher.

(** Modelled from the spec: the block cipher and the hash under the
    authenticated cipher of section 4.2.  The repository names AES-GCM
    (README, [aes-gcm] in Cargo.toml) and keeps it in the Rust engine, which
    is not among the sources; both are parameters here. *)
Variable E : bytes -> bytes -> bytes.
Variable GHASH : bytes -> bytes -> bytes -> bytes.

(** Modelled from the spec: the one failure of [open], section 4.2. *)
Inductive AuthError := TamperedOrWrongKey.

(** Modelled from the spec: the 32-bit big-endian block counter of the
    counter mode. *)
Definition be32 (n : N) : bytes :=
  [(n / 16777216) mod 256; (n / 65536) mod 256; (n / 256) mod 256;
   n mod 256]%N.

(** Modelled from the spec: the block fed to the cipher, the nonce followed
    by the counter. *)
Definition counter_block (nonce : bytes) (ctr : N) : bytes :=
  (nonce ++ be32 (ctr mod 4294967296)%N)%list.

(** Modelled from the spec: the [i]-th byte of the keystream for a key and
    nonce; counter 1 is kept for the tag. *)
Definition keystream_byte (key nonce : bytes) (i : nat) : N :=
  nth (i mod 16)
      (E key (counter_block nonce (N.of_nat (i / 16) + 2)%N)) 0%N.

(** Modelled from the spec: the data xored with the keystream from offset
    [i] on; encryption and decryption alike. *)
Fixpoint ctr_xor (key nonce : bytes) (i : nat) (data : bytes) : bytes :=
  match data with
  | [] => []
  | b :: rest =>
      N.lxor b (keystream_byte key nonce i) :: ctr_xor key nonce (S i) rest
  end.

(** Modelled from the spec: bytewise xor of two blocks. *)
Fixpoint xor_bytes (a b : bytes) : bytes :=
  match a, b with
  | x :: a', y :: b' => N.lxor x y :: xor_bytes a' b'
  | _, _ => []
  end.

(** Modelled from the spec: the integrity tag over the associated data and
    the ciphertext. *)
Definition compute_tag (key nonce associated_data ciphertext : bytes)
  : bytes :=
  xor_bytes (GHASH (E key (repeat 0%N 16)) associated_data ciphertext)
            (E key (counter_block nonce 1)).

(** Modelled from the spec: [seal(key, nonce, plaintext, associated_data?)
    -> (ciphertext, tag)] of section 4.2; absent associated data is empty. *)
Definition seal (key nonce plaintext : bytes)
  (associated_data : option bytes) : bytes * bytes :=
  let ciphertext := ctr_xor key nonce 0 plaintext in
  (ciphertext, compute_tag key nonce (default [] associated_data) ciphertext).

(** Modelled from the spec: [open(key, nonce, ciphertext, tag,
    associated_data?) -> plaintext | AuthError] of section 4.2; it fails
    whenever the tag does not verify. *)
Definition open (key nonce ciphertext tag : bytes)
  (associated_data : option bytes) : bytes + AuthError :=
  if bool_decide
       (tag = compute_tag key nonce (default [] associated_data) ciphertext)
  then inl (ctr_xor key nonce 0 ciphertext)
  else inr TamperedOrWrongKey.

End Cipher.

(** Modelled from the spec: the key derivation function as sections 4.3 and
    8 take it.  "For all P' <> P, unlock(P') returns InvalidCredentials"
    holds only of a derivation that, under one salt and one set of
    parameters, never sends two secrets to the same material; an ideal KDF
    is a deterministic derivation together with that property.  The
    engine's own KDF (the Rust code) is not among the sources. *)
Record IdealKdf (Params : Type) := {
  kdf : string -> string -> Params -> string;
  kdf_collision_free :
    forall secret secret' salt params,
      kdf secret salt params = kdf secret' salt params -> secret = secret' }.
Arguments kdf {Params} _ _ _ _.
Arguments kdf_collision_free {Params} _ _ _ _ _ _.

End Engine.

(* ===================================================================== *)
(** * The properties as the specification words them *)
(* ===================================================================== *)

Module Stated.

Definition is_lowercase (c : N) : bool := (97 <=? c)%N && (c <=? 122)%N.
Definition is_uppercase (c : N) : bool := (65 <=? c)%N && (c <=? 90)%N.
Definition is_digit (c : N) : bool := (48 <=? c)%N && (c <=? 57)%N.

(** "length at least 8 and at least one lowercase letter, one uppercase
    letter, and one decimal digit" *)
Definition strong_password (p : list N) : bool :=
  (8 <=? length p)%nat && existsb is_lowercase p && existsb is_uppercase p
  && existsb is_digit p.

(** The engine's answer to a login or a setup is a refusal when it is a
    rejection or a response that is not both successful and carrying a
    non-empty key. *)
Definition refused (o : Outcome AuthResponse) : bool :=
  match o with
  | Resolved r => negb (success r && Js.truthy_opt (master_key r))
  | Rejected _ => true
  end.

End Stated.

(* ===================================================================== *)
(** * Concrete inputs *)
(* ===================================================================== *)

Module Cases.

(** The password [aaaaaaaa<LF>A1]: eleven units, with a lowercase letter, an
    uppercase letter and a digit, the last two on a second line. *)
Definition two_line_password : list Regex.code_unit :=
  Regex.units ("aaaaaaaa" +:+ String "010"%char "" +:+ "A1").

(** An engine that is not there: every command is rejected. *)
Definition unavailable : Ipc.Backend :=
  let no {T} : Outcome T := Rejected (Js.Str "engine unavailable") in
  {| Ipc.on_is_app_setup := no;
     Ipc.on_setup_app := fun _ => no;
     Ipc.on_login := fun _ => no;
     Ipc.on_add_password := fun _ => no;
     Ipc.on_get_all_passwords := fun _ => no;
     Ipc.on_get_password := fun _ => no;
     Ipc.on_update_password := fun _ => no;
     Ipc.on_delete_password := fun _ => no;
     Ipc.on_search_passwords := fun _ _ => no;
     Ipc.on_create_backup := fun _ _ => no |}.

(** An engine that is set up, accepts every login with the key [k] and
    answers every record command with success and no data. *)
Definition accepting (k : string) : Ipc.Backend :=
  let ok {D} : Outcome (PasswordResponse D) :=
    Resolved {| pr_success := true; pr_message := "ok"; data := None |} in
  {| Ipc.on_is_app_setup := Resolved true;
     Ipc.on_setup_app := fun _ =>
       Resolved {| success := true; message := "ok"; master_key := Some k |};
     Ipc.on_login := fun _ =>
       Resolved {| success := true; message := "ok"; master_key := Some k |};
     Ipc.on_add_password := fun _ => ok;
     Ipc.on_get_all_passwords := fun _ => ok;
     Ipc.on_get_password := fun _ => ok;
     Ipc.on_update_password := fun _ => ok;
     Ipc.on_delete_password := fun _ => ok;
     Ipc.on_search_passwords := fun _ _ => ok;
     Ipc.on_create_backup := fun _ _ =>
       Resolved {| ex_success := true; ex_message := "ok";
                   file_path := Some "/backup" |} |}.

(** A stand-in key derivation for running the engine of the specification:
    the salt, a separator, the secret. *)
Definition toy_derive (secret salt : string) (_ : unit) : string :=
  salt +:+ ":" +:+ secret.

Definition toy_working_key (secret salt : string) (_ : unit) : string :=
  "key:" +:+ salt +:+ ":" +:+ secret.

(** The session right after a successful login in a fresh browser. *)
Definition logged_in : World Auth.Ui :=
  run (Auth.login (accepting "k3y") "Tr0ub4dor!") (App.start Browser.fresh).

(** The dashboard as first rendered over a session. *)
Definition dashboard_over (w : World Auth.Ui) : World Dashboard.Ui :=
  {| ui := Dashboard.initial (ui w); browser := browser w |}.

(** The add and edit modals opened over a page, with a filled form. *)
Definition filled_form : Dashboard.PasswordFormData :=
  {| Dashboard.f_software := "example"; Dashboard.f_account := "user";
     Dashboard.f_password := "s3cr3t"; Dashboard.f_notes := "" |}.

Definition modal_over (d : World Dashboard.Ui) : World Dashboard.ModalUi :=
  {| ui := {| Dashboard.page := ui d; Dashboard.formData := filled_form;
              Dashboard.errors :=
                {| Dashboard.e_software := None; Dashboard.e_account := None;
                   Dashboard.e_password := None |};
              Dashboard.isLoading := false |};
     browser := browser d |}.

(** The export modal opened over a page, passphrase typed twice. *)
Definition export_over (d : World Dashboard.Ui) : World Dashboard.ExportUi :=
  {| ui := {| Dashboard.ex_page := ui d;
              Dashboard.exportPassphrase := "correct horse";
              Dashboard.confirmPassphrase := "correct horse";
              Dashboard.ex_isLoading := false; Dashboard.exportPath := "";
              Dashboard.ex_passphrase_error := None;
              Dashboard.ex_confirm_error := None |};
     browser := browser d |}.

(** The setup page with the form of the specification's scenario. *)
Definition setup_form : Setup.SetupFormData :=
  {| Setup.masterPassword := "Tr0ub4dor!";
     Setup.confirmPassword := "Tr0ub4dor!";
     Setup.question1 := "First pet?"; Setup.answer1 := "Rex";
     Setup.question2 := "Birth city?"; Setup.answer2 := "Oslo";
     Setup.question3 := "First school?"; Setup.answer3 := "Northside" |}.

Definition setup_page (fd : Setup.SetupFormData) : World Setup.Ui :=
  {| ui := {| Setup.auth := Auth.initial; Setup.formData := fd;
              Setup.errors := Setup.no_errors; Setup.isLoading := false |};
     browser := Browser.fresh |}.

(** A translation table that returns the key. *)
Definition no_translation : App.translation := fun key _ => key.

(** The setup page after the engine has accepted that form. *)
Definition after_setup : World Setup.Ui :=
  run (Setup.handleSubmit no_translation (accepting "k3y"))
      (setup_page setup_form).

End Cases.

(* ===================================================================== *)
(** * Theorems *)
(* ===================================================================== *)

Import Effects Api.

(** ** Tactics and small facts *)

(** Unfolds the monad and the effects of a handler down to the React state
    and the browser record. *)
Ltac steps :=
  cbv beta iota zeta delta
    [run result bind ret setState getState getBrowser modifyBrowser zoom
     fst snd ui browser
     invoke console_log alert set_location_hash
     sessionStorage_setItem sessionStorage_removeItem sessionStorage_getItem
     localStorage_setItem
     handleApiCall userApi_isAppSetup userApi_setupApp userApi_login
     passwordApi_addPassword passwordApi_getAllPasswords
     passwordApi_getPassword passwordApi_updatePassword
     passwordApi_deletePassword passwordApi_searchPasswords
     exportApi_createBackup
     setMasterKey getMasterKey clearMasterKey setAuthState getAuthState
     clearAuthState clearAll
     Auth.setAppState Auth.setIsLoading Auth.state Auth.isLoading
     Browser.sessionStorage Browser.localStorage Browser.ipc Browser.console
     Browser.alerts Browser.hash
     isAuthenticated masterKey isSetup loading error].

(** As [steps], through the handlers of the pages as well. *)
Ltac page_steps :=
  cbv beta iota zeta delta
    [App.of_setup App.of_dashboard App.of_modal App.of_export
     Auth.initializeAuth Auth.login Auth.logout Auth.checkSetup
     Locale.setLanguage Locale.saveLanguage
     Setup.handleSubmit Setup.validateForm Setup.checkSetup Setup.setErrors
     Setup.setIsLoading Setup.auth Setup.formData Setup.errors Setup.isLoading
     Dashboard.loadPasswords Dashboard.handleSearch
     Dashboard.handleViewPassword Dashboard.handleEditPassword
     Dashboard.handleDeletePassword Dashboard.logout
     Dashboard.add_handleSubmit Dashboard.edit_handleSubmit
     Dashboard.add_onSuccess Dashboard.edit_onSuccess Dashboard.on_page
     Dashboard.handleExport Dashboard.export_onClose
     Dashboard.set_export Dashboard.ex_setIsLoading Dashboard.ex_setExportPath
     Dashboard.ex_setErrors
     Dashboard.setPasswords Dashboard.setLoading Dashboard.setShowEditForm
     Dashboard.setEditingPassword Dashboard.setSelectedPassword
     Dashboard.setShowPassword Dashboard.setShowAddForm
     Dashboard.setShowExportModal Dashboard.setErrors Dashboard.setIsLoading
     Dashboard.state Dashboard.auth Dashboard.page Dashboard.ex_page
     Dashboard.searchQuery Dashboard.formData];
  steps.

(** Splits on whatever a handler still branches on. *)
Ltac branch :=
  match goal with
  | |- context [match ?x with _ => _ end] =>
      lazymatch x with
      | context [match _ with _ => _ end] => fail
      | _ => destruct x eqn:?
      end
  end.

Ltac crunch := page_steps; repeat (branch; page_steps).

(** As [steps], through the setters of the dashboard and its modals, but
    not through [loadPasswords]. *)
Ltac modal_steps :=
  cbv beta iota zeta delta
    [Dashboard.add_onSuccess Dashboard.edit_onSuccess Dashboard.on_page
     Dashboard.setPasswords Dashboard.setLoading Dashboard.setShowEditForm
     Dashboard.setEditingPassword Dashboard.setSelectedPassword
     Dashboard.setShowPassword Dashboard.setShowAddForm
     Dashboard.setShowExportModal Dashboard.setErrors Dashboard.setIsLoading
     Dashboard.page Dashboard.formData];
  steps.

Lemma truthy_opt_true (o : option string) :
  Js.truthy_opt o = true -> exists k, o = Some k /\ k <> "".
Proof.
  destruct o as [k |]; cbn; [| discriminate].
  unfold Js.truthy. destruct (String.eqb_spec k ""); [discriminate |].
  eauto.
Qed.

Lemma truthy_opt_Some (k : string) : k <> "" -> Js.truthy_opt (Some k) = true.
Proof.
  intros Hne. cbn. unfold Js.truthy.
  destruct (String.eqb_spec k ""); [contradiction | reflexivity].
Qed.

(** ** Error normalization *)

(** C10: for every wrapped call, [handleApiCall] returns the call's value
    unchanged when the call is fulfilled; when the call fails it rejects,
    and what it rejects with is an [ApiError] whose message is the thrown
    string, the thrown [Error]'s message, or 'An unknown error occurred' for
    anything else.  It never rejects with another kind of value and never
    turns a failure into a value. *)
Theorem handleApiCall_normalizes {S T} (apiCall : M S (Outcome T))
  (w : World S) :
  match result apiCall w with
  | Resolved v => result (handleApiCall apiCall) w = Resolved v
  | Rejected thrown =>
      exists e,
        result (handleApiCall apiCall) w = Rejected e /\
        Js.instanceof_ApiError e = true /\
        match thrown with
        | Js.Str s => Js.message_of e = s
        | Js.ErrorObj _ _ m _ => Js.message_of e = m
        | _ => Js.message_of e = "An unknown error occurred"
        end
  end.
Proof.
  unfold result, handleApiCall, bind.
  destruct (apiCall w) as [[v | thrown] w1]; cbn; [reflexivity |].
  destruct thrown; cbn; eexists; repeat split; reflexivity.
Qed.

(** The wrapper issues no command of its own and leaves React state and Web
    Storage as the wrapped call left them. *)
Lemma handleApiCall_world {S T} (apiCall : M S (Outcome T)) (w : World S) :
  let w1 := run apiCall w in
  let w2 := run (handleApiCall apiCall) w in
  ui w2 = ui w1 /\
  Browser.ipc (browser w2) = Browser.ipc (browser w1) /\
  Browser.sessionStorage (browser w2) = Browser.sessionStorage (browser w1) /\
  Browser.localStorage (browser w2) = Browser.localStorage (browser w1).
Proof.
  unfold run, handleApiCall, bind.
  destruct (apiCall w) as [[v | thrown] w1]; cbn; [tauto |].
  destruct thrown; cbn; tauto.
Qed.

(** ** Master-password validation *)

Section PasswordRegex.
Import Regex.

Lemma on_line_unfold a c s :
  on_line a (c :: s) =
  atom_matches a c || (negb (is_line_terminator c) && on_line a s).
Proof.
  unfold on_line. cbn. rewrite andb_true_r. reflexivity.
Qed.

Lemma on_line_nil a : on_line a [] = false.
Proof. reflexivity. Qed.

(** A lookahead that succeeds has found a unit of its class. *)
Lemma on_line_exists a s :
  on_line a s = true -> existsb (atom_matches a) s = true.
Proof.
  induction s as [| c s IH]; [discriminate |].
  rewrite on_line_unfold. cbn [existsb].
  destruct (atom_matches a c); cbn; [reflexivity |].
  intros H. apply andb_true_iff in H as [_ H]. auto.
Qed.

(** Without line terminators [.*] reaches every unit. *)
Lemma exists_on_line a s :
  forallb (fun c => negb (is_line_terminator c)) s = true ->
  existsb (atom_matches a) s = true -> on_line a s = true.
Proof.
  induction s as [| c s IH]; [discriminate 2 |].
  cbn [forallb existsb]. rewrite on_line_unfold.
  intros Hl He. apply andb_true_iff in Hl as [Hc Hl].
  destruct (atom_matches a c); cbn; [reflexivity |].
  rewrite Hc. cbn in *. auto.
Qed.

Lemma password_regex_at s :
  matches password_regex (fun _ => true) s =
  on_line (Range 97%N 122%N) s &&
  (on_line (Range 65%N 90%N) s && on_line Digit s).
Proof.
  unfold password_regex, on_line.
  cbn [matches]. rewrite !andb_true_r. reflexivity.
Qed.

Lemma existsb_tail {A} (f : A -> bool) (c : A) s :
  existsb f s = true -> existsb f (c :: s) = true.
Proof. cbn. intros ->. apply orb_true_r. Qed.

Lemma test_password_regex_sound s :
  test password_regex s = true ->
  existsb Stated.is_lowercase s = true /\
  existsb Stated.is_uppercase s = true /\
  existsb Stated.is_digit s = true.
Proof.
  induction s as [| c s IH].
  - cbn. discriminate.
  - cbn [test]. rewrite password_regex_at.
    intros H. apply orb_true_iff in H as [H | H].
    + apply andb_true_iff in H as [H1 H].
      apply andb_true_iff in H as [H2 H3].
      apply on_line_exists in H1, H2, H3. auto.
    + destruct (IH H) as (H1 & H2 & H3).
      repeat split; apply existsb_tail; assumption.
Qed.

Lemma test_at_start r s :
  matches r (fun _ => true) s = true -> test r s = true.
Proof. destruct s; cbn; intros ->; reflexivity. Qed.

End PasswordRegex.

(** Whatever [validatePassword] accepts has length at least 8, a lowercase
    letter, an uppercase letter and a digit. *)
Lemma validatePassword_sound (p : list Regex.code_unit) :
  isValid (validatePassword p) = true -> Stated.strong_password p = true.
Proof.
  unfold validatePassword, Stated.strong_password.
  destruct (length p <? 8)%nat eqn:Hlen; [discriminate |].
  destruct (Regex.test password_regex p) eqn:Ht; [| discriminate].
  intros _. apply test_password_regex_sound in Ht as (H1 & H2 & H3).
  apply Nat.ltb_ge in Hlen. apply Nat.leb_le in Hlen.
  unfold Regex.code_unit in *.
  rewrite Hlen, H1, H2, H3. reflexivity.
Qed.

(** On a password without line terminators the validation accepts exactly
    the passwords of the required strength. *)
Lemma validatePassword_single_line (p : list Regex.code_unit) :
  forallb (fun c => negb (Regex.is_line_terminator c)) p = true ->
  isValid (validatePassword p) = Stated.strong_password p.
Proof.
  intros Hl.
  destruct (Stated.strong_password p) eqn:Hs.
  - unfold Stated.strong_password in Hs.
    apply andb_true_iff in Hs as [Hs H3].
    apply andb_true_iff in Hs as [Hs H2].
    apply andb_true_iff in Hs as [Hlen H1].
    unfold validatePassword, Regex.code_unit in *.
    apply Nat.leb_le in Hlen.
    destruct (Nat.ltb_spec (length p) 8) as [Hlt | _]; [lia |].
    rewrite test_at_start; [reflexivity |].
    rewrite password_regex_at.
    rewrite !exists_on_line; auto.
  - destruct (isValid (validatePassword p)) eqn:Hv; [| reflexivity].
    apply validatePassword_sound in Hv. congruence.
Qed.

(** Every rejection comes with a message. *)
Lemma validatePassword_message (p : list Regex.code_unit) :
  isValid (validatePassword p) = false ->
  exists m, v_message (validatePassword p) = Some m.
Proof.
  unfold validatePassword.
  destruct (length p <? 8)%nat; [eauto |].
  destruct (Regex.test password_regex p); cbn; [discriminate | eauto].
Qed.

(** C9: [validatePassword] on the password [aaaaaaaa<LF>A1].  The password
    has length at least 8 and contains a lowercase letter, an uppercase
    letter and a decimal digit, yet the validation returns [isValid] false,
    with the message that asks for exactly those three: [.] in the pattern
    does not cross a line terminator. *)
Theorem validatePassword_two_lines :
  Stated.strong_password Cases.two_line_password = true /\
  validatePassword Cases.two_line_password =
    {| isValid := false;
       v_message := Some "Password must contain at least one lowercase letter, one uppercase letter, and one number" |}.
Proof. split; vm_compute; reflexivity. Qed.

(** ** The session: logout and login *)

(** C4: logout discards the key.  After [logout] the entries 'masterKey' and
    'isAuthenticated' are gone from session storage, and the session state
    has [isAuthenticated] false, [masterKey] null and [error] null; nothing
    else changes and the engine is not called. *)
Theorem logout_discards_key (w : World Auth.Ui) :
  let w' := run Auth.logout w in
  Browser.sessionStorage (browser w') !! "masterKey" = None /\
  Browser.sessionStorage (browser w') !! "isAuthenticated" = None /\
  isAuthenticated (Auth.state (ui w')) = false /\
  masterKey (Auth.state (ui w')) = None /\
  error (Auth.state (ui w')) = None /\
  isSetup (Auth.state (ui w')) = isSetup (Auth.state (ui w)) /\
  loading (Auth.state (ui w')) = loading (Auth.state (ui w)) /\
  Browser.sessionStorage (browser w') =
    delete "isAuthenticated"
      (delete "masterKey" (Browser.sessionStorage (browser w))) /\
  Browser.localStorage (browser w') = Browser.localStorage (browser w) /\
  Browser.ipc (browser w') = Browser.ipc (browser w).
Proof.
  destruct w as [[st il] b]. unfold Auth.logout. steps.
  repeat split.
  - rewrite lookup_delete_ne by discriminate. apply lookup_delete_eq.
  - apply lookup_delete_eq.
Qed.

(** A refused login leaves the session as it was, apart from [error], writes
    nothing to Web Storage, and returns the engine's response or, after a
    rejection, an unsuccessful response without a key. *)
Lemma login_refused_spec (be : Ipc.Backend) (pw : string)
  (w : World Auth.Ui) :
  Stated.refused (Ipc.on_login be {| master_password := pw |}) = true ->
  let w' := run (Auth.login be pw) w in
  isAuthenticated (Auth.state (ui w')) = isAuthenticated (Auth.state (ui w)) /\
  masterKey (Auth.state (ui w')) = masterKey (Auth.state (ui w)) /\
  Browser.sessionStorage (browser w') = Browser.sessionStorage (browser w) /\
  Browser.localStorage (browser w') = Browser.localStorage (browser w) /\
  match Ipc.on_login be {| master_password := pw |} with
  | Resolved r => result (Auth.login be pw) w = r
  | Rejected e =>
      result (Auth.login be pw) w =
        {| success := false;
           message := match e with
                      | Js.Str s => s
                      | Js.ErrorObj _ _ m _ => m
                      | _ => "An unknown error occurred"
                      end;
           master_key := None |}
  end.
Proof.
  destruct w as [[st il] b]. unfold Stated.refused, Auth.login. steps.
  destruct (Ipc.on_login be _) as [r | e]; steps.
  - intros Hr. apply negb_true_iff in Hr. rewrite Hr. steps. tauto.
  - intros _. destruct e; steps; tauto.
Qed.

(** A login the engine accepts stores the key: in the session state and in
    session storage. *)
Lemma login_accepted_spec (be : Ipc.Backend) (pw : string)
  (w : World Auth.Ui) (r : AuthResponse) (k : string) :
  Ipc.on_login be {| master_password := pw |} = Resolved r ->
  success r = true -> master_key r = Some k -> k <> "" ->
  let w' := run (Auth.login be pw) w in
  result (Auth.login be pw) w = r /\
  isAuthenticated (Auth.state (ui w')) = true /\
  masterKey (Auth.state (ui w')) = Some k /\
  Browser.sessionStorage (browser w') =
    <["isAuthenticated" := "true"]>
      (<["masterKey" := k]> (Browser.sessionStorage (browser w))) /\
  Browser.localStorage (browser w') = Browser.localStorage (browser w).
Proof.
  intros Hbe Hs Hk Hne.
  destruct w as [[st il] b]. unfold Auth.login. steps.
  rewrite Hbe. steps. rewrite Hs, Hk. cbn [andb Js.truthy_opt].
  assert (Ht : Js.truthy k = true).
  { unfold Js.truthy. destruct (String.eqb_spec k ""); [contradiction | reflexivity]. }
  rewrite Ht. steps. cbn [default String_of_bool]. tauto.
Qed.

(** [login] hands the engine's response, key included, to its caller. *)
Lemma login_returns_response (be : Ipc.Backend) (pw : string)
  (w : World Auth.Ui) :
  match Ipc.on_login be {| master_password := pw |} with
  | Resolved r => result (Auth.login be pw) w = r
  | Rejected _ => Boundary.response_keys (result (Auth.login be pw) w) = []
  end.
Proof.
  destruct w as [[st il] b]. unfold Auth.login. steps.
  destruct (Ipc.on_login be _) as [r | e]; steps.
  - destruct (success r && Js.truthy_opt (master_key r)); reflexivity.
  - destruct e; reflexivity.
Qed.

(** The engine of the specification refuses every candidate whose hash
    differs from the stored one. *)
Lemma unlock_mismatch {Params} (derive dwk : string -> string -> Params -> string)
  (rec : Engine.MasterSecretRecord Params) (candidate : string) :
  derive candidate (Engine.kdf_salt _ rec) (Engine.kdf_params _ rec)
    <> Engine.verification_hash _ rec ->
  Engine.unlock _ derive dwk rec candidate =
    {| success := false; message := "InvalidCredentials";
       master_key := None |}.
Proof.
  intros Hne. unfold Engine.unlock.
  destruct (String.eqb_spec
              (derive candidate (Engine.kdf_salt _ rec) (Engine.kdf_params _ rec))
              (Engine.verification_hash _ rec)); [contradiction | reflexivity].
Qed.


Lemma append_cancel_l (p a b : string) : p +:+ a = p +:+ b -> a = b.
Proof.
  induction p as [| c p IH]; cbn; [auto |].
  intros H. injection H as H. auto.
Qed.

(** The stand-in derivation never sends two secrets to the same material. *)
Lemma toy_derive_collision_free (secret secret' salt : string) (params : unit) :
  Cases.toy_derive secret salt params = Cases.toy_derive secret' salt params ->
  secret = secret'.
Proof.
  unfold Cases.toy_derive. intros H.
  apply append_cancel_l in H. apply (append_cancel_l ":") in H. exact H.
Qed.


(** ** The session invariant *)

(** Each transition of the provider keeps the invariant. *)
Lemma auth_step_invariant (w w' : World Auth.Ui) :
  App.auth_step w w' ->
  App.unlocked_has_key (Auth.state (ui w)) ->
  App.unlocked_has_key (Auth.state (ui w')).
Proof.
  unfold App.unlocked_has_key.
  intros Hstep. destruct Hstep as [be w | be pw w | w | be w | b' w];
    destruct w as [[st il] b]; intros Hinv.
  - (* mount *)
    unfold Auth.initializeAuth. steps.
    destruct (Ipc.on_is_app_setup be) as [v | e]; steps.
    + intros H. apply andb_true_iff in H as [_ H].
      apply truthy_opt_true in H. exact H.
    + destruct e; steps; exact Hinv.
  - (* login *)
    unfold Auth.login. steps.
    destruct (Ipc.on_login be _) as [r | e]; steps.
    + destruct (success r && Js.truthy_opt (master_key r)) eqn:Hc; steps.
      * intros _. apply andb_true_iff in Hc as [_ Hc].
        apply truthy_opt_true in Hc. exact Hc.
      * exact Hinv.
    + destruct e; steps; exact Hinv.
  - (* logout *)
    unfold Auth.logout. steps. discriminate.
  - (* checkSetup *)
    unfold Auth.checkSetup. steps.
    destruct (Ipc.on_is_app_setup be) as [v | e]; steps; [exact Hinv |].
    destruct e; steps; exact Hinv.
  - (* another component writes to the browser *)
    exact Hinv.
Qed.

(** C8: in every state reachable through the provider's transitions (the
    initialization on mount, a successful or a failed login, logout,
    [checkSetup]), whatever the engine answers and whatever other components
    put into Web Storage in between, [isAuthenticated] true implies that
    [masterKey] is a non-empty string, hence not null. *)
Theorem unlocked_implies_key (b : Browser.t) (w : World Auth.Ui) :
  App.auth_reachable (App.start b) w ->
  App.unlocked_has_key (Auth.state (ui w)).
Proof.
  induction 1 as [| w w' _ IH Hstep].
  - cbn. unfold App.unlocked_has_key. cbn. discriminate.
  - eapply auth_step_invariant; eassumption.
Qed.

(** The session after a successful login is reachable, and unlocked with a
    key. *)
Lemma unlocked_implies_key_witness :
  App.auth_reachable (App.start Browser.fresh) Cases.logged_in /\
  App.unlocked_has_key (Auth.state (ui Cases.logged_in)).
Proof.
  assert (H : App.auth_reachable (App.start Browser.fresh) Cases.logged_in).
  { eapply App.auth_reach_step; [apply App.auth_reach_init |].
    apply App.auth_login. }
  split; [exact H |].
  exact (unlocked_implies_key Browser.fresh Cases.logged_in H).
Defined.

(** ** The setup page *)

Lemma required_None (value msg : string) :
  Setup.required value msg = None -> value <> "".
Proof.
  unfold Setup.required, Js.truthy.
  destruct (String.eqb_spec value ""); cbn; [discriminate | auto].
Qed.

(** A form that [validateForm] accepts has all three questions and all three
    answers filled in; validation touches nothing but the error cell. *)
Lemma validateForm_spec (t : App.translation) (s : World Setup.Ui) :
  let valid := result (Setup.validateForm t) s in
  let s1 := run (Setup.validateForm t) s in
  Setup.formData (ui s1) = Setup.formData (ui s) /\
  Setup.auth (ui s1) = Setup.auth (ui s) /\
  browser s1 = browser s /\
  if valid then
    Forall (fun qa => fst qa <> "" /\ snd qa <> "")
           (Setup.qa_pairs (Setup.setupRequest_of (Setup.formData (ui s))))
  else True.
Proof.
  destruct s as [[a fd er il] b].
  unfold Setup.validateForm, run, result, bind, getState, Setup.setErrors,
    setState, ret. cbn [fst snd ui browser Setup.formData Setup.auth].
  repeat split.
  match goal with |- if ?c then _ else _ => destruct c eqn:Hc end; [| exact I].
  apply Nat.eqb_eq in Hc. unfold Setup.keys_length in Hc.
  cbn [Setup.e_masterPassword Setup.e_confirmPassword Setup.e_question1
       Setup.e_answer1 Setup.e_question2 Setup.e_answer2 Setup.e_question3
       Setup.e_answer3] in Hc.
  destruct (Setup.required (Setup.question1 fd) _) eqn:Q1;
  destruct (Setup.required (Setup.answer1 fd) _) eqn:A1;
  destruct (Setup.required (Setup.question2 fd) _) eqn:Q2;
  destruct (Setup.required (Setup.answer2 fd) _) eqn:A2;
  destruct (Setup.required (Setup.question3 fd) _) eqn:Q3;
  destruct (Setup.required (Setup.answer3 fd) _) eqn:A3;
  try (exfalso; revert Hc;
       repeat match goal with
       | |- context [if ?c then _ else _] => destruct c
       end; cbn; discriminate).
  apply required_None in Q1, A1, Q2, A2, Q3, A3.
  unfold Setup.qa_pairs, Setup.setupRequest_of. cbn.
  repeat constructor; assumption.
Qed.

(** What [handleSubmit] sends: nothing when validation fails, otherwise the
    setup request built from the form, first. *)
Lemma handleSubmit_sends (t : App.translation) (be : Ipc.Backend)
  (s : World Setup.Ui) :
  let request := Setup.setupRequest_of (Setup.formData (ui s)) in
  let s' := run (Setup.handleSubmit t be) s in
  if result (Setup.validateForm t) s then
    exists rest,
      Browser.ipc (browser s') =
      (Browser.ipc (browser s) ++ Ipc.setup_app request :: rest)%list
  else Browser.ipc (browser s') = Browser.ipc (browser s).
Proof.
  pose proof (validateForm_spec t s) as Hspec.
  unfold Setup.handleSubmit, run, result, bind in *.
  destruct (Setup.validateForm t s) as [valid s1].
  cbn [fst snd] in *. destruct Hspec as (Hfd & _ & Hb & _).
  destruct s1 as [u1 b1]. cbn [ui browser] in *. subst b1.
  destruct valid; cbn [negb]; [| reflexivity].
  rewrite <- Hfd. clear Hfd.
  unfold Setup.setIsLoading, Setup.setErrors, Setup.checkSetup.
  steps. cbn [Setup.formData].
  destruct (Ipc.on_setup_app be _) as [r | e]; steps.
  - destruct (success r && Js.truthy_opt (master_key r)); steps.
    + unfold Auth.checkSetup. steps.
      destruct (Ipc.on_is_app_setup be) as [v | e]; steps.
      * eexists. rewrite <- app_assoc. reflexivity.
      * destruct e; steps; eexists; rewrite <- app_assoc; reflexivity.
    + exists []. reflexivity.
  - exists []. destruct e; reflexivity.
Qed.

(** A setup the engine accepts stores the key in session storage; the
    session state is not unlocked by it. *)
Lemma setup_stores_key (t : App.translation) (be : Ipc.Backend)
  (s : World Setup.Ui) :
  let request := Setup.setupRequest_of (Setup.formData (ui s)) in
  let s' := run (Setup.handleSubmit t be) s in
  (if result (Setup.validateForm t) s &&
      negb (Stated.refused (Ipc.on_setup_app be request))
   then exists r, Ipc.on_setup_app be request = Resolved r /\
                  Browser.sessionStorage (browser s') !! "masterKey" =
                    master_key r
   else Browser.sessionStorage (browser s') =
        Browser.sessionStorage (browser s)) /\
  isAuthenticated (Auth.state (Setup.auth (ui s'))) =
    isAuthenticated (Auth.state (Setup.auth (ui s))) /\
  masterKey (Auth.state (Setup.auth (ui s'))) =
    masterKey (Auth.state (Setup.auth (ui s))).
Proof.
  pose proof (validateForm_spec t s) as Hspec.
  unfold Setup.handleSubmit, run, result, bind in *.
  destruct (Setup.validateForm t s) as [valid s1].
  cbn [fst snd] in *. destruct Hspec as (Hfd & Ha & Hb & _).
  destruct s1 as [u1 b1]. cbn [ui browser] in *. subst b1.
  destruct valid; cbn [negb andb ret snd ui browser];
    [| rewrite Ha; auto].
  rewrite <- Hfd, <- Ha. clear Hfd Ha.
  unfold Setup.setIsLoading, Setup.setErrors, Setup.checkSetup.
  steps. cbn [Setup.formData Setup.auth].
  destruct (Ipc.on_setup_app be _) as [r | e]; steps; cbn [Stated.refused].
  - rewrite negb_involutive.
    destruct (success r && Js.truthy_opt (master_key r)) eqn:Hacc; steps.
    + apply andb_true_iff in Hacc as [_ Hk].
      apply truthy_opt_true in Hk as (k & Hk & _).
      unfold Auth.checkSetup. steps. rewrite Hk. cbn [default].
      destruct (Ipc.on_is_app_setup be) as [v | e]; steps.
      * split; [| auto]. exists r. split; [reflexivity |].
        rewrite lookup_insert_ne by discriminate.
        rewrite lookup_insert_eq. auto.
      * destruct e; steps; (split; [| auto]); exists r;
          (split; [reflexivity |]);
          rewrite lookup_insert_ne by discriminate;
          rewrite lookup_insert_eq; auto.
    + auto.
  - destruct e; cbn; auto.
Qed.

(** What a setup does to Web Storage: nothing to local storage; to session
    storage, the two entries of an unlocked session with the key the engine
    returned, and only when the form validated and the engine accepted. *)
Lemma setup_storage_spec (t : App.translation) (be : Ipc.Backend)
  (s : World Setup.Ui) :
  let request := Setup.setupRequest_of (Setup.formData (ui s)) in
  let s' := run (Setup.handleSubmit t be) s in
  Browser.localStorage (browser s') = Browser.localStorage (browser s) /\
  if result (Setup.validateForm t) s then
    match Ipc.on_setup_app be request with
    | Resolved r =>
        if success r && Js.truthy_opt (master_key r) then
          exists k, master_key r = Some k /\
            Browser.sessionStorage (browser s') =
              <["isAuthenticated" := "true"]>
                (<["masterKey" := k]> (Browser.sessionStorage (browser s)))
        else Browser.sessionStorage (browser s') =
             Browser.sessionStorage (browser s)
    | Rejected _ =>
        Browser.sessionStorage (browser s') =
        Browser.sessionStorage (browser s)
    end
  else Browser.sessionStorage (browser s') =
       Browser.sessionStorage (browser s).
Proof.
  pose proof (validateForm_spec t s) as Hspec.
  unfold Setup.handleSubmit, run, result, bind in *.
  destruct (Setup.validateForm t s) as [valid s1].
  cbn [fst snd] in *. destruct Hspec as (Hfd & _ & Hb & _).
  destruct s1 as [u1 b1]. cbn [ui browser] in *. subst b1.
  destruct valid; cbn [negb ret snd ui browser]; [| auto].
  rewrite <- Hfd. clear Hfd.
  unfold Setup.setIsLoading, Setup.setErrors, Setup.checkSetup.
  steps. cbn [Setup.formData Setup.auth].
  destruct (Ipc.on_setup_app be _) as [r | e]; steps.
  - destruct (success r && Js.truthy_opt (master_key r)) eqn:Hacc; steps;
      [| auto].
    apply andb_true_iff in Hacc as [_ Hk].
    apply truthy_opt_true in Hk as (k & Hk & _).
    unfold Auth.checkSetup. steps. rewrite Hk. cbn [default String_of_bool].
    destruct (Ipc.on_is_app_setup be) as [v | e]; steps.
    + split; [reflexivity |]. exists k. auto.
    + destruct e; steps; (split; [reflexivity |]); exists k; auto.
  - destruct e; cbn; auto.
Qed.

(** ** Where the key is kept *)

(** What a step may change in Web Storage: 'pwdbox-language' in local
    storage, 'masterKey' and 'isAuthenticated' in session storage. *)
Lemma step_storage_frame (w w' : World Auth.Ui) :
  App.step w w' ->
  delete "pwdbox-language" (Browser.localStorage (browser w')) =
    delete "pwdbox-language" (Browser.localStorage (browser w)) /\
  delete "isAuthenticated"
    (delete "masterKey" (Browser.sessionStorage (browser w'))) =
    delete "isAuthenticated"
      (delete "masterKey" (Browser.sessionStorage (browser w))).
Proof.
  assert (Hs : forall (m : gmap string string) k v,
    delete "isAuthenticated" (delete "masterKey"
      (<["isAuthenticated" := v]> (<["masterKey" := k]> m))) =
    delete "isAuthenticated" (delete "masterKey" m)).
  { intros m k v. apply map_eq. intros i.
    rewrite !lookup_delete, !lookup_insert.
    repeat case_decide; congruence. }
  assert (Hd : forall (m : gmap string string),
    delete "isAuthenticated" (delete "masterKey"
      (delete "isAuthenticated" (delete "masterKey" m))) =
    delete "isAuthenticated" (delete "masterKey" m)).
  { intros m. apply map_eq. intros i.
    rewrite !lookup_delete. repeat case_decide; congruence. }
  destruct 1; crunch;
    rewrite ?delete_insert_eq, ?Hs, ?Hd; split; reflexivity.
Qed.

(** Local storage only ever receives a language code, under
    'pwdbox-language': every step leaves it as it was, except [setLanguage]. *)
Lemma step_local_storage (w w' : World Auth.Ui) :
  App.step w w' ->
  Browser.localStorage (browser w') = Browser.localStorage (browser w) \/
  exists l, Browser.localStorage (browser w') =
            <["pwdbox-language" := Locale.code l]>
              (Browser.localStorage (browser w)).
Proof.
  destruct 1; crunch;
    first [left; reflexivity | right; eexists; reflexivity].
Qed.

Lemma reachable_local_storage (b : Browser.t) (w : World Auth.Ui) :
  App.reachable (App.start b) w ->
  Browser.localStorage (browser w) = Browser.localStorage b \/
  exists l, Browser.localStorage (browser w) =
            <["pwdbox-language" := Locale.code l]> (Browser.localStorage b).
Proof.
  induction 1 as [| w w' _ IH Hstep]; [left; reflexivity |].
  destruct (step_local_storage _ _ Hstep) as [Hs | [l Hs]]; rewrite Hs.
  - exact IH.
  - right. exists l. destruct IH as [-> | [l0 ->]]; [reflexivity |].
    apply insert_insert_eq.
Qed.

(** C2, as stated, fails.  The session reached by one successful login in
    a fresh browser holds the key "k3y", and session storage holds the same
    key under 'masterKey'.  After an accepted setup the key is in session
    storage although the session is still locked.  So it is not true that in
    every reachable state the key is in no storage area. *)
Lemma key_written_to_session_storage :
  App.reachable (App.start Browser.fresh) Cases.logged_in /\
  masterKey (Auth.state (ui Cases.logged_in)) = Some "k3y" /\
  Browser.sessionStorage (browser Cases.logged_in) !! "masterKey" = Some "k3y" /\
  App.reachable (App.start Browser.fresh) (App.of_setup Cases.after_setup) /\
  isAuthenticated (Auth.state (Setup.auth (ui Cases.after_setup))) = false /\
  Browser.sessionStorage (browser Cases.after_setup) !! "masterKey" =
    Some "k3y" /\
  ~ (forall w, App.reachable (App.start Browser.fresh) w ->
       forall k, masterKey (Auth.state (ui w)) = Some k ->
                 ~ Boundary.stored k (browser w)).
Proof.
  assert (Hr : App.reachable (App.start Browser.fresh) Cases.logged_in).
  { eapply App.reach_step; [apply App.reach_init | apply App.step_login]. }
  assert (Hk : masterKey (Auth.state (ui Cases.logged_in)) = Some "k3y")
    by reflexivity.
  assert (Hs : Browser.sessionStorage (browser Cases.logged_in) !! "masterKey"
               = Some "k3y") by (vm_compute; reflexivity).
  split; [exact Hr |]. split; [exact Hk |]. split; [exact Hs |].
  split; [| split; [| split]].
  - eapply App.reach_step; [apply App.reach_init |].
    apply (App.step_setup Cases.no_translation (Cases.accepting "k3y")
             (Cases.setup_page Cases.setup_form)).
  - reflexivity.
  - vm_compute. reflexivity.
  - intros Hclaim. apply (Hclaim _ Hr _ Hk). left. eauto.
Qed.

(** C2, amended: the key is kept in the session state and, by design, also
    in session storage; it is never written to local storage.  In every
    state reachable from the first render in a browser [b], local storage
    is that of [b], except that 'pwdbox-language' may have been set to a
    language code, and session storage differs from that of [b] at most at
    'masterKey' and 'isAuthenticated'.  From such a state, a login the
    engine accepts writes the key the engine returned to session storage
    under 'masterKey' (and 'true' under 'isAuthenticated') and to the
    session state; an accepted setup writes the same two entries; a refused
    login or setup, or a setup form that does not validate, leaves session
    storage as it was; none of them touches local storage; and logout
    removes the key from session storage and from the session state. *)
Theorem key_kept_in_session_storage (b : Browser.t) (w : World Auth.Ui) :
  App.reachable (App.start b) w ->
  (Browser.localStorage (browser w) = Browser.localStorage b \/
   exists l, Browser.localStorage (browser w) =
             <["pwdbox-language" := Locale.code l]> (Browser.localStorage b)) /\
  delete "isAuthenticated"
    (delete "masterKey" (Browser.sessionStorage (browser w))) =
    delete "isAuthenticated" (delete "masterKey" (Browser.sessionStorage b)) /\
  (forall be masterPassword,
    let w' := run (Auth.login be masterPassword) w in
    Browser.localStorage (browser w') = Browser.localStorage (browser w) /\
    match Ipc.on_login be {| master_password := masterPassword |} with
    | Resolved r =>
        if success r && Js.truthy_opt (master_key r) then
          exists k, master_key r = Some k /\
            masterKey (Auth.state (ui w')) = Some k /\
            Browser.sessionStorage (browser w') =
              <["isAuthenticated" := "true"]>
                (<["masterKey" := k]> (Browser.sessionStorage (browser w)))
        else Browser.sessionStorage (browser w') =
             Browser.sessionStorage (browser w)
    | Rejected _ =>
        Browser.sessionStorage (browser w') =
        Browser.sessionStorage (browser w)
    end) /\
  (forall (t : App.translation) be (s : World Setup.Ui),
    let request := Setup.setupRequest_of (Setup.formData (ui s)) in
    let s' := run (Setup.handleSubmit t be) s in
    Browser.localStorage (browser s') = Browser.localStorage (browser s) /\
    if result (Setup.validateForm t) s then
      match Ipc.on_setup_app be request with
      | Resolved r =>
          if success r && Js.truthy_opt (master_key r) then
            exists k, master_key r = Some k /\
              Browser.sessionStorage (browser s') =
                <["isAuthenticated" := "true"]>
                  (<["masterKey" := k]> (Browser.sessionStorage (browser s)))
          else Browser.sessionStorage (browser s') =
               Browser.sessionStorage (browser s)
      | Rejected _ =>
          Browser.sessionStorage (browser s') =
          Browser.sessionStorage (browser s)
      end
    else Browser.sessionStorage (browser s') =
         Browser.sessionStorage (browser s)) /\
  (let w' := run Auth.logout w in
   Browser.sessionStorage (browser w') !! "masterKey" = None /\
   masterKey (Auth.state (ui w')) = None /\
   Browser.localStorage (browser w') = Browser.localStorage (browser w)).
Proof.
  intros Hr. split; [| split; [| split; [| split]]].
  - exact (reachable_local_storage b w Hr).
  - induction Hr as [| w w' _ IH Hstep]; [reflexivity |].
    apply step_storage_frame in Hstep as [_ Hs]. congruence.
  - intros be pw w'. clear Hr.
    destruct (Ipc.on_login be _) as [r | e] eqn:Hbe.
    + destruct (success r && Js.truthy_opt (master_key r)) eqn:Hacc.
      * apply andb_true_iff in Hacc as [Hs Hk].
        destruct (truthy_opt_true _ Hk) as (k & Hmk & Hne).
        destruct (login_accepted_spec be pw w r k Hbe Hs Hmk Hne)
          as (_ & _ & Hm & Hss & Hls).
        split; [exact Hls |]. exists k. auto.
      * assert (Href : Stated.refused
                         (Ipc.on_login be {| master_password := pw |}) = true).
        { rewrite Hbe. cbn. rewrite Hacc. reflexivity. }
        destruct (login_refused_spec be pw w Href) as (_ & _ & Hss & Hls & _).
        split; [exact Hls | exact Hss].
    + assert (Href : Stated.refused
                       (Ipc.on_login be {| master_password := pw |}) = true).
      { rewrite Hbe. reflexivity. }
      destruct (login_refused_spec be pw w Href) as (_ & _ & Hss & Hls & _).
      split; [exact Hls | exact Hss].
  - intros t be s. apply (setup_storage_spec t be s).
  - clear Hr. destruct w as [[st il] b0]. unfold Auth.logout. steps.
    repeat split.
    rewrite lookup_delete_ne by discriminate. apply lookup_delete_eq.
Qed.

(** The session after one login in a fresh browser: local storage is still
    empty, and no entry of session storage but the two of the session has
    changed. *)
Lemma key_kept_in_session_storage_witness :
  App.reachable (App.start Browser.fresh) Cases.logged_in /\
  (Browser.localStorage (browser Cases.logged_in) =
     Browser.localStorage Browser.fresh \/
   exists l, Browser.localStorage (browser Cases.logged_in) =
             <["pwdbox-language" := Locale.code l]>
               (Browser.localStorage Browser.fresh)) /\
  delete "isAuthenticated"
    (delete "masterKey" (Browser.sessionStorage (browser Cases.logged_in))) =
    delete "isAuthenticated"
      (delete "masterKey" (Browser.sessionStorage Browser.fresh)).
Proof.
  assert (Hr : App.reachable (App.start Browser.fresh) Cases.logged_in).
  { eapply App.reach_step; [apply App.reach_init | apply App.step_login]. }
  split; [exact Hr |].
  destruct (key_kept_in_session_storage Browser.fresh Cases.logged_in Hr)
    as (Hl & Hs & _).
  split; [exact Hl | exact Hs].
Defined.

(** ** The dashboard without a key *)

(** C5, as stated, fails.  On the dashboard of a locked session
    ([masterKey] null), a confirmed [handleDeletePassword] calls the engine's
    [delete_password]; and the add modal over that dashboard, given an empty
    key and a filled form, calls [add_password]. *)
Lemma delete_calls_engine_without_key :
  let d := Cases.dashboard_over (App.start Browser.fresh) in
  masterKey (Dashboard.state (ui d)) = None /\
  Browser.ipc (browser d) = [] /\
  Browser.ipc
    (browser (run (Dashboard.handleDeletePassword (Cases.accepting "k3y")
                     true 7) d)) =
    [Ipc.delete_password {| dp_id := 7 |}] /\
  Browser.ipc
    (browser (run (Dashboard.add_handleSubmit Cases.no_translation ""
                     (Cases.accepting "k3y")) (Cases.modal_over d))) =
    [Ipc.add_password
       {| ap_software := "example"; ap_account := "user";
          ap_password := "s3cr3t"; ap_notes := Some "";
          ap_master_key := "" |}].
Proof. vm_compute. repeat split. Qed.

Lemma loadPasswords_no_key (be : Ipc.Backend) (w : World Dashboard.Ui) :
  Js.truthy_opt (masterKey (Dashboard.state (ui w))) = false ->
  Dashboard.loadPasswords be w = (tt, w).
Proof.
  intros Hk. unfold Dashboard.loadPasswords, bind, getState.
  rewrite Hk. reflexivity.
Qed.

(** ** What the handlers of the dashboard send *)

(** With a key in the session, each guarded handler sends it. *)
Lemma guarded_handlers_send_key (be : Ipc.Backend) (d : World Dashboard.Ui)
  (k : string) (id : Z) (entry : PasswordEntry) :
  masterKey (Dashboard.state (ui d)) = Some k -> k <> "" ->
  Browser.ipc (browser (run (Dashboard.loadPasswords be) d)) =
    (Browser.ipc (browser d) ++
     [Ipc.get_all_passwords
        {| gp_master_key := k;
           search_query :=
             if Js.truthy (Dashboard.searchQuery (ui d))
             then Some (Dashboard.searchQuery (ui d)) else None |}])%list /\
  Browser.ipc (browser (run (Dashboard.handleSearch be) d)) =
    (Browser.ipc (browser d) ++
     [Ipc.search_passwords (Dashboard.searchQuery (ui d)) k])%list /\
  Browser.ipc (browser (run (Dashboard.handleViewPassword be id) d)) =
    (Browser.ipc (browser d) ++
     [Ipc.get_password {| dc_id := id; dc_master_key := k |}])%list /\
  Browser.ipc (browser (run (Dashboard.handleEditPassword be entry) d)) =
    (Browser.ipc (browser d) ++
     [Ipc.get_password {| dc_id := entry_id entry; dc_master_key := k |}])%list.
Proof.
  intros Hk Hne. pose proof (truthy_opt_Some k Hne) as Ht.
  destruct d as [u b]. cbn [ui browser] in *.
  repeat split.
  - unfold Dashboard.loadPasswords, run, bind, getState. cbn [ui].
    rewrite Hk, Ht. cbn [negb default]. steps.
    destruct (Ipc.on_get_all_passwords be _) as [r | e]; steps.
    + destruct (pr_success r), (data r); reflexivity.
    + destruct e; reflexivity.
  - unfold Dashboard.handleSearch, run, bind, getState. cbn [ui].
    rewrite Hk, Ht. cbn [negb default]. steps.
    destruct (Ipc.on_search_passwords be _ _) as [r | e]; steps.
    + destruct (pr_success r), (data r); reflexivity.
    + destruct e; reflexivity.
  - unfold Dashboard.handleViewPassword, run, bind, getState. cbn [ui].
    rewrite Hk, Ht. cbn [negb default]. steps.
    destruct (Ipc.on_get_password be _) as [r | e]; steps.
    + destruct (pr_success r), (data r); reflexivity.
    + destruct e; reflexivity.
  - unfold Dashboard.handleEditPassword, run, bind, getState. cbn [ui].
    rewrite Hk, Ht. cbn [negb default]. steps.
    destruct (Ipc.on_get_password be _) as [r | e]; steps.
    + destruct (pr_success r), (data r); reflexivity.
    + destruct e; reflexivity.
Qed.

(** [loadPasswords] only ever appends to the log of calls. *)
Lemma loadPasswords_appends (be : Ipc.Backend) (w : World Dashboard.Ui) :
  exists rest,
    Browser.ipc (browser (snd (Dashboard.loadPasswords be w))) =
    (Browser.ipc (browser w) ++ rest)%list.
Proof.
  destruct w as [u b]. unfold Dashboard.loadPasswords, bind, getState.
  cbn [ui].
  destruct (Js.truthy_opt _); cbn [negb].
  - steps. destruct (Ipc.on_get_all_passwords be _) as [r | e]; steps.
    + destruct (pr_success r), (data r); eexists; reflexivity.
    + destruct e; eexists; reflexivity.
  - exists []. cbn. rewrite app_nil_r. reflexivity.
Qed.

(** The add and edit modals send the key they were given, whenever the form
    is complete. *)
Lemma modals_send_key (t : App.translation) (k : string) (be : Ipc.Backend)
  (entry : PasswordEntry) (m : World Dashboard.ModalUi) :
  Dashboard.keys_length
    (Dashboard.required_fields t (Dashboard.formData (ui m))) = 0%nat ->
  let fd := Dashboard.formData (ui m) in
  (exists rest,
     Browser.ipc (browser (run (Dashboard.add_handleSubmit t k be) m)) =
     (Browser.ipc (browser m) ++
      Ipc.add_password
        {| ap_software := Dashboard.f_software fd;
           ap_account := Dashboard.f_account fd;
           ap_password := Dashboard.f_password fd;
           ap_notes := Some (Dashboard.f_notes fd);
           ap_master_key := k |} :: rest)%list) /\
  (exists rest,
     Browser.ipc (browser (run (Dashboard.edit_handleSubmit t k be entry) m)) =
     (Browser.ipc (browser m) ++
      Ipc.update_password
        {| up_id := entry_id entry;
           up_software := Dashboard.f_software fd;
           up_account := Dashboard.f_account fd;
           up_password := Dashboard.f_password fd;
           up_notes := Some (Dashboard.f_notes fd);
           up_master_key := k |} :: rest)%list).
Proof.
  intros Hform fd. destruct m as [u b]. cbn [ui browser] in *. subst fd.
  split.
  - unfold Dashboard.add_handleSubmit, run, bind, getState. cbn [ui].
    rewrite Hform. cbn [Nat.ltb Nat.leb]. modal_steps.
    destruct (Ipc.on_add_password be _) as [r | e]; modal_steps.
    + destruct (pr_success r); modal_steps.
      * match goal with
        | |- context [Dashboard.loadPasswords be ?w] =>
            destruct (loadPasswords_appends be w) as [rest Hrest];
            destruct (Dashboard.loadPasswords be w) as [[] w1]
        end.
        exists rest. destruct w1 as [u1 [ss ls ip co al ha]].
        cbn [snd browser Browser.ipc] in Hrest. modal_steps.
        rewrite Hrest, <- app_assoc. reflexivity.
      * exists []. reflexivity.
    + exists []. destruct e; reflexivity.
  - unfold Dashboard.edit_handleSubmit, run, bind, getState. cbn [ui].
    rewrite Hform. cbn [Nat.ltb Nat.leb]. modal_steps.
    destruct (Ipc.on_update_password be _) as [r | e]; modal_steps.
    + destruct (pr_success r); modal_steps.
      * match goal with
        | |- context [Dashboard.loadPasswords be ?w] =>
            destruct (loadPasswords_appends be w) as [rest Hrest];
            destruct (Dashboard.loadPasswords be w) as [[] w1]
        end.
        exists rest. destruct w1 as [u1 [ss ls ip co al ha]].
        cbn [snd browser Browser.ipc] in Hrest. modal_steps.
        rewrite Hrest, <- app_assoc. reflexivity.
      * exists []. reflexivity.
    + exists []. destruct e; reflexivity.
Qed.

Lemma keys_sent_app (l1 l2 : list Ipc.Command) :
  Boundary.keys_sent (l1 ++ l2) =
  (Boundary.keys_sent l1 ++ Boundary.keys_sent l2)%list.
Proof. unfold Boundary.keys_sent. rewrite map_app, concat_app. reflexivity. Qed.

(** The delete request goes out first, and carries no key. *)
Lemma delete_sends_id_only (be : Ipc.Backend) (d : World Dashboard.Ui)
  (id : Z) :
  exists rest,
    Browser.ipc (browser (run (Dashboard.handleDeletePassword be true id) d)) =
    (Browser.ipc (browser d) ++
     Ipc.delete_password {| dp_id := id |} :: rest)%list.
Proof.
  destruct d as [u b]. unfold Dashboard.handleDeletePassword. steps.
  cbn [negb]. steps.
  destruct (Ipc.on_delete_password be _) as [r | e]; steps.
  - destruct (pr_success r); steps; [| exists []; reflexivity].
    match goal with
    | |- context [Dashboard.loadPasswords be ?w] =>
        destruct (loadPasswords_appends be w) as [rest Hrest];
        destruct (Dashboard.loadPasswords be w) as [[] w1]
    end.
    exists rest. destruct w1 as [u1 [ss ls ip co al ha]].
    cbn [snd browser Browser.ipc] in Hrest. steps.
    rewrite Hrest, <- app_assoc. reflexivity.
  - exists []. destruct e; reflexivity.
Qed.

(** The export sends the passphrase, and no key. *)
Lemma export_sends_no_key (t : App.translation) (be : Ipc.Backend)
  (e : World Dashboard.ExportUi) :
  Boundary.keys_sent
    (Browser.ipc (browser (run (Dashboard.handleExport t be) e))) =
  Boundary.keys_sent (Browser.ipc (browser e)).
Proof.
  destruct e as [u b]. unfold Dashboard.handleExport, run, bind, getState.
  cbn [ui].
  destruct (bool_decide _ || bool_decide _).
  - reflexivity.
  - unfold Dashboard.ex_setIsLoading, Dashboard.ex_setErrors,
      Dashboard.ex_setExportPath, Dashboard.export_onClose,
      Dashboard.set_export, Dashboard.setShowExportModal.
    steps. cbn [Js.truthy_opt]. steps.
    destruct (Ipc.on_create_backup be _ _) as [r | err]; steps.
    + destruct (ex_success r && Js.truthy_opt (file_path r)); steps;
        rewrite keys_sent_app; cbn; apply app_nil_r.
    + destruct err; steps; rewrite keys_sent_app; cbn; apply app_nil_r.
Qed.

(** An incomplete form is not sent, by either modal. *)
Lemma modals_incomplete_send_nothing (t : App.translation) (k : string)
  (be : Ipc.Backend) (entry : PasswordEntry) (m : World Dashboard.ModalUi) :
  (Dashboard.keys_length
     (Dashboard.required_fields t (Dashboard.formData (ui m))) =? 0)%nat
    = false ->
  Browser.ipc (browser (run (Dashboard.add_handleSubmit t k be) m)) =
    Browser.ipc (browser m) /\
  Browser.ipc (browser (run (Dashboard.edit_handleSubmit t k be entry) m)) =
    Browser.ipc (browser m).
Proof.
  intros Hform. apply Nat.eqb_neq in Hform.
  assert (Hlt : (0 <? Dashboard.keys_length
                        (Dashboard.required_fields t
                           (Dashboard.formData (ui m))))%nat = true)
    by (apply Nat.ltb_lt; lia).
  destruct m as [u b]. cbn [ui browser] in *.
  split.
  - unfold Dashboard.add_handleSubmit, run, bind, getState. cbn [ui].
    rewrite Hlt. reflexivity.
  - unfold Dashboard.edit_handleSubmit, run, bind, getState. cbn [ui].
    rewrite Hlt. reflexivity.
Qed.

(** ** The record operations and the key *)

(** C5, amended: without a master key in the session (null, or the empty
    string), [loadPasswords], [handleSearch], [handleViewPassword] and
    [handleEditPassword] return at once: no engine call, no change of state,
    the world is left exactly as it was.  The other record operations are
    not gated on the key.  [handleDeletePassword], whose request carries only
    the record's id, calls [delete_password] once confirmed, whatever
    [masterKey] is; without a key that is its only call.  The add and update
    modals send [add_password] and [update_password] with whatever key they
    were given as a prop, the empty string too, whenever the form is
    complete, and send nothing when it is not. *)
Theorem guarded_handlers_fail_closed (t : App.translation)
  (be : Ipc.Backend) (d d' : World Dashboard.Ui)
  (m : World Dashboard.ModalUi) (k : string) (id : Z)
  (entry : PasswordEntry) :
  Js.truthy_opt (masterKey (Dashboard.state (ui d))) = false ->
  run (Dashboard.loadPasswords be) d = d /\
  run (Dashboard.handleSearch be) d = d /\
  run (Dashboard.handleViewPassword be id) d = d /\
  run (Dashboard.handleEditPassword be entry) d = d /\
  Browser.ipc (browser (run (Dashboard.handleDeletePassword be true id) d)) =
    (Browser.ipc (browser d) ++ [Ipc.delete_password {| dp_id := id |}])%list /\
  (exists rest,
     Browser.ipc
       (browser (run (Dashboard.handleDeletePassword be true id) d')) =
     (Browser.ipc (browser d') ++
      Ipc.delete_password {| dp_id := id |} :: rest)%list) /\
  if (Dashboard.keys_length
        (Dashboard.required_fields t (Dashboard.formData (ui m))) =? 0)%nat
  then
    (exists r rest,
       ap_master_key r = k /\
       Browser.ipc (browser (run (Dashboard.add_handleSubmit t k be) m)) =
       (Browser.ipc (browser m) ++ Ipc.add_password r :: rest)%list) /\
    (exists r rest,
       up_master_key r = k /\
       Browser.ipc
         (browser (run (Dashboard.edit_handleSubmit t k be entry) m)) =
       (Browser.ipc (browser m) ++ Ipc.update_password r :: rest)%list)
  else
    Browser.ipc (browser (run (Dashboard.add_handleSubmit t k be) m)) =
      Browser.ipc (browser m) /\
    Browser.ipc (browser (run (Dashboard.edit_handleSubmit t k be entry) m)) =
      Browser.ipc (browser m).
Proof.
  intros Hk.
  split; [| split; [| split; [| split; [| split; [| split]]]]].
  - destruct d as [u b]. unfold run.
    rewrite loadPasswords_no_key by exact Hk. reflexivity.
  - destruct d as [u b]. cbn [ui] in Hk.
    unfold run, Dashboard.handleSearch, bind, getState. cbn [ui].
    rewrite Hk. reflexivity.
  - destruct d as [u b]. cbn [ui] in Hk.
    unfold run, Dashboard.handleViewPassword, bind, getState. cbn [ui].
    rewrite Hk. reflexivity.
  - destruct d as [u b]. cbn [ui] in Hk.
    unfold run, Dashboard.handleEditPassword, bind, getState. cbn [ui].
    rewrite Hk. reflexivity.
  - destruct d as [u b]. cbn [ui browser] in *.
    unfold Dashboard.handleDeletePassword. steps.
    destruct (Ipc.on_delete_password be _) as [r | e]; steps.
    + destruct (pr_success r); steps; [| reflexivity].
      cbn [negb]. steps.
      rewrite loadPasswords_no_key by exact Hk. reflexivity.
    + destruct e; reflexivity.
  - apply delete_sends_id_only.
  - destruct (Dashboard.keys_length _ =? 0)%nat eqn:Hform.
    + apply Nat.eqb_eq in Hform.
      destruct (modals_send_key t k be entry m Hform) as [[r1 Ha] [r2 Hu]].
      split.
      * eexists _, r1. split; [| exact Ha]. reflexivity.
      * eexists _, r2. split; [| exact Hu]. reflexivity.
    + apply modals_incomplete_send_nothing. exact Hform.
Qed.

(** The dashboard of a locked session, and the add modal over it with a
    filled form and an empty key. *)
Lemma guarded_handlers_fail_closed_witness :
  let d := Cases.dashboard_over (App.start Browser.fresh) in
  let be := Cases.accepting "k3y" in
  Js.truthy_opt (masterKey (Dashboard.state (ui d))) = false /\
  run (Dashboard.loadPasswords be) d = d /\
  run (Dashboard.handleSearch be) d = d /\
  run (Dashboard.handleViewPassword be 7) d = d.
Proof.
  split; [reflexivity |].
  destruct (guarded_handlers_fail_closed Cases.no_translation
              (Cases.accepting "k3y")
              (Cases.dashboard_over (App.start Browser.fresh))
              (Cases.dashboard_over Cases.logged_in)
              (Cases.modal_over (Cases.dashboard_over (App.start Browser.fresh)))
              "" 7
              {| entry_id := 7; software := "example"; account := "user";
                 password := None; notes := None; created_at := None |}
              eq_refl) as (H1 & H2 & H3 & _).
  repeat split; assumption.
Defined.

(** ** What the boundary carries *)




(** ** Three security questions *)

(** C6: exactly three security questions.  A setup request carries exactly
    three question/answer pairs; [handleSubmit] sends it only when the form
    validates, and then all three questions and all three answers are
    non-empty; otherwise nothing is sent.  A recovery request carries
    exactly three answers, and the verification of the specification
    authorizes exactly when each of the three verifies against its own
    question. *)
Theorem three_security_questions {Params}
  (derive : string -> string -> Params -> string)
  (t : App.translation) (be : Ipc.Backend) (s : World Setup.Ui)
  (q1 q2 q3 : Engine.SecurityQuestion Params) (recovery : RecoveryRequest) :
  let request := Setup.setupRequest_of (Setup.formData (ui s)) in
  let s' := run (Setup.handleSubmit t be) s in
  length (Setup.qa_pairs request) = 3%nat /\
  (if result (Setup.validateForm t) s then
     Forall (fun qa => fst qa <> "" /\ snd qa <> "") (Setup.qa_pairs request) /\
     exists rest,
       Browser.ipc (browser s') =
       (Browser.ipc (browser s) ++ Ipc.setup_app request :: rest)%list
   else Browser.ipc (browser s') = Browser.ipc (browser s)) /\
  length (Setup.recovery_answers recovery) = 3%nat /\
  Engine.verify_recovery_answers _ derive q1 q2 q3 recovery =
    forallb (fun qa => Engine.answer_verifies _ derive (fst qa) (snd qa))
            (combine [q1; q2; q3] (Setup.recovery_answers recovery)).
Proof.
  intros request s'. split; [reflexivity |]. split; [| split].
  - pose proof (handleSubmit_sends t be s) as Hs.
    pose proof (validateForm_spec t s) as (_ & _ & _ & Hq).
    cbv zeta in Hs. fold request s' in Hs, Hq.
    destruct (result (Setup.validateForm t) s); [split |]; assumption.
  - reflexivity.
  - unfold Engine.verify_recovery_answers, Engine.verify_answers,
      Setup.recovery_answers. cbn.
    rewrite andb_true_r, andb_assoc. reflexivity.
Qed.

(** A partial set of answers, one that fails for any of the three
    questions, does not authorize recovery. *)
Lemma partial_answers_refused {Params}
  (derive : string -> string -> Params -> string)
  (q1 q2 q3 : Engine.SecurityQuestion Params) (recovery : RecoveryRequest) :
  Engine.answer_verifies _ derive q1 (rc_answer1 recovery) = false \/
  Engine.answer_verifies _ derive q2 (rc_answer2 recovery) = false \/
  Engine.answer_verifies _ derive q3 (rc_answer3 recovery) = false ->
  Engine.verify_recovery_answers _ derive q1 q2 q3 recovery = false.
Proof.
  unfold Engine.verify_recovery_answers, Engine.verify_answers.
  intros [H | [H | H]]; rewrite H; cbn;
    rewrite ?andb_false_r; reflexivity.
Qed.

(** A form with an empty question or answer is not submitted. *)
Lemma incomplete_setup_not_sent (t : App.translation) (be : Ipc.Backend)
  (s : World Setup.Ui) :
  Exists (fun qa => fst qa = "" \/ snd qa = "")
         (Setup.qa_pairs (Setup.setupRequest_of (Setup.formData (ui s)))) ->
  Browser.ipc (browser (run (Setup.handleSubmit t be) s)) =
  Browser.ipc (browser s).
Proof.
  intros Hex.
  pose proof (handleSubmit_sends t be s) as Hs.
  pose proof (validateForm_spec t s) as (_ & _ & _ & Hq). cbv zeta in Hs.
  destruct (result (Setup.validateForm t) s); [| exact Hs].
  exfalso. apply Exists_exists in Hex as (qa & Hin & Hempty).
  rewrite Forall_forall in Hq. destruct (Hq qa Hin) as [Hq1 Hq2].
  destruct Hempty; contradiction.
Qed.

(** ** The authenticated cipher *)

Lemma ctr_xor_involutive (E : Engine.bytes -> Engine.bytes -> Engine.bytes)
  (key nonce : Engine.bytes) (data : Engine.bytes) (i : nat) :
  Engine.ctr_xor E key nonce i (Engine.ctr_xor E key nonce i data) = data.
Proof.
  revert i. induction data as [| b rest IH]; intros i; cbn; [reflexivity |].
  rewrite IH. f_equal.
  rewrite N.lxor_assoc, N.lxor_nilpotent, N.lxor_0_r. reflexivity.
Qed.

Lemma ctr_xor_length (E : Engine.bytes -> Engine.bytes -> Engine.bytes)
  (key nonce : Engine.bytes) (data : Engine.bytes) (i : nat) :
  length (Engine.ctr_xor E key nonce i data) = length data.
Proof.
  revert i. induction data as [| b rest IH]; intros i; cbn; [reflexivity |].
  rewrite IH. reflexivity.
Qed.

(** C7: round trip of the authenticated cipher.  For every key, nonce,
    plaintext [M] and associated data, opening the ciphertext and tag that
    [seal] produced for [M] under that key and nonce returns exactly [M];
    this holds for the cipher as modelled from the specification, whatever
    the block cipher and the hash are. *)
Theorem open_seal_round_trip
  (E : Engine.bytes -> Engine.bytes -> Engine.bytes)
  (GHASH : Engine.bytes -> Engine.bytes -> Engine.bytes -> Engine.bytes)
  (key nonce M : Engine.bytes) (associated_data : option Engine.bytes) :
  Engine.open E GHASH key nonce
    (fst (Engine.seal E GHASH key nonce M associated_data))
    (snd (Engine.seal E GHASH key nonce M associated_data))
    associated_data = inl M.
Proof.
  unfold Engine.open, Engine.seal. cbn [fst snd].
  rewrite bool_decide_eq_true_2 by reflexivity.
  rewrite ctr_xor_involutive. reflexivity.
Qed.

(** A tampered tag is refused: the model is not one that opens anything. *)
Lemma open_rejects_other_tag
  (E : Engine.bytes -> Engine.bytes -> Engine.bytes)
  (GHASH : Engine.bytes -> Engine.bytes -> Engine.bytes -> Engine.bytes)
  (key nonce ciphertext tag : Engine.bytes)
  (associated_data : option Engine.bytes) :
  tag <> Engine.compute_tag E GHASH key nonce (default [] associated_data)
           ciphertext ->
  Engine.open E GHASH key nonce ciphertext tag associated_data =
    inr Engine.TamperedOrWrongKey.
Proof.
  intros Hne. unfold Engine.open.
  rewrite bool_decide_eq_false_2 by exact Hne. reflexivity.
Qed.

(** ** The scenario of the specification, run *)

Example setup_scenario_is_sent :
  Browser.ipc
    (browser (run (Setup.handleSubmit Cases.no_translation
                     (Cases.accepting "k3y"))
                  (Cases.setup_page Cases.setup_form))) =
  [Ipc.setup_app (Setup.setupRequest_of Cases.setup_form); Ipc.is_app_setup].
Proof. vm_compute. reflexivity. Qed.

Example setup_without_third_answer_is_not_sent :
  let fd :=
    {| Setup.masterPassword := "Tr0ub4dor!";
       Setup.confirmPassword := "Tr0ub4dor!";
       Setup.question1 := "First pet?"; Setup.answer1 := "Rex";
       Setup.question2 := "Birth city?"; Setup.answer2 := "Oslo";
       Setup.question3 := "First school?"; Setup.answer3 := "" |} in
  let s' := run (Setup.handleSubmit Cases.no_translation
                   (Cases.accepting "k3y")) (Cases.setup_page fd) in
  Browser.ipc (browser s') = [] /\
  Setup.e_answer3 (Setup.errors (ui s')) = Some "setup.answerRequired".
Proof. vm_compute. split; reflexivity. Qed.

Example two_answers_of_three_are_refused :
  let q text answer :=
    Engine.question_record _ Cases.toy_derive text answer "salt" tt in
  let q1 := q "First pet?" "Rex" in
  let q2 := q "Birth city?" "Oslo" in
  let q3 := q "First school?" "Northside" in
  Engine.verify_answers _ Cases.toy_derive q1 q2 q3 "Rex" "Oslo" "Northside"
    = true /\
  Engine.verify_answers _ Cases.toy_derive q1 q2 q3 "Rex" "Oslo" "" = false /\
  Engine.verify_answers _ Cases.toy_derive q1 q2 q3 "Rex" "Bergen" "Northside"
    = false.
Proof. vm_compute. repeat split. Qed.

Example login_scenario :
  isAuthenticated (Auth.state (ui Cases.logged_in)) = true /\
  masterKey (Auth.state (ui Cases.logged_in)) = Some "k3y" /\
  Browser.sessionStorage (browser Cases.logged_in) !! "isAuthenticated"
    = Some "true" /\
  Browser.ipc (browser Cases.logged_in) =
    [Ipc.login {| master_password := "Tr0ub4dor!" |}].
Proof. vm_compute. repeat split. Qed.

Example logout_scenario :
  let w := run Auth.logout Cases.logged_in in
  masterKey (Auth.state (ui w)) = None /\
  Browser.sessionStorage (browser w) !! "masterKey" = None.
Proof. vm_compute. split; reflexivity. Qed.

Example mount_restores_the_session :
  let w := run (Auth.initializeAuth (Cases.accepting "k3y"))
               (App.start (browser Cases.logged_in)) in
  isAuthenticated (Auth.state (ui w)) = true /\
  masterKey (Auth.state (ui w)) = Some "k3y".
Proof. vm_compute. split; reflexivity. Qed.

Example rejected_with_a_string :
  result (handleApiCall (userApi_login Cases.unavailable
                           {| master_password := "x" |}))
         (App.start Browser.fresh) =
  Rejected (Js.ErrorObj Js.ClsApiError "ApiError" "engine unavailable" None).
Proof. reflexivity. Qed.

Example validatePassword_examples :
  isValid (validatePassword (Regex.units "Tr0ub4dor!")) = true /\
  isValid (validatePassword (Regex.units "Tr0ub4d")) = false /\
  isValid (validatePassword (Regex.units "troubador1")) = false /\
  isValid (validatePassword (Regex.units "TROUBADOR1")) = false /\
  isValid (validatePassword (Regex.units "Troubadour")) = false.
Proof. vm_compute. repeat split. Qed.

Example seal_then_open :
  let E (key block : Engine.bytes) := map (N.lxor 90) (key ++ block)%list in
  let GHASH (h a c : Engine.bytes) := (c ++ a ++ h)%list in
  let sealed := Engine.seal E GHASH [1; 2; 3]%N [9; 9]%N [115; 51; 99]%N None in
  fst sealed <> [115; 51; 99]%N /\
  Engine.open E GHASH [1; 2; 3]%N [9; 9]%N (fst sealed) (snd sealed) None =
    inl [115; 51; 99]%N /\
  Engine.open E GHASH [1; 2; 3]%N [9; 9]%N [0; 0; 0]%N (snd sealed) None =
    inr Engine.TamperedOrWrongKey.
Proof. vm_compute. repeat split. discriminate. Qed.

Example correct_password_unlocks :
  let K := {| Engine.kdf := Cases.toy_derive;
              Engine.kdf_collision_free := toy_derive_collision_free |} in
  let be := Engine.backend _ (Engine.kdf K) Cases.toy_working_key
              (Engine.master_record _ (Engine.kdf K) "Tr0ub4dor!" "salt" tt)
              Cases.unavailable in
  let w := run (Auth.login be "Tr0ub4dor!") (App.start Browser.fresh) in
  isAuthenticated (Auth.state (ui w)) = true /\
  masterKey (Auth.state (ui w)) = Some "key:salt:Tr0ub4dor!" /\
  Browser.sessionStorage (browser w) !! "masterKey"
    = Some "key:salt:Tr0ub4dor!".
Proof. vm_compute. repeat split. Qed.
